(** * alx-polly: response submission, duplicate prevention and poll lifecycle

    A shallow embedding of the server actions of
    [app/lib/actions/response-actions.ts] and
    [app/lib/actions/poll-actions.ts], of the zod schema they validate
    with, and of the Supabase client surface they consume, followed by
    the properties of the submission flow.

    Layout:
    - [Js]              JavaScript strings as UTF-16 code units, truthiness,
                        the string iterator behind [Array.from];
    - [Zod]             issues, [safeParse] results, the [uuid] check;
    - [Supabase]        rows, replies, the client interface, the call log;
    - [Runtime]         the state-and-exception monad the actions run in;
    - [ResponseActions] [emojiResponseSchema], [submitEmojiResponse];
    - [PollActions]     [createPoll], [submitVote], [deletePoll];
    - [MemStore]        an executable store with constraints and policies;
    - [PollQueries], [AuthActions], [Middleware], [PollCreateForm],
      [PollCard]        the remaining actions, the cookie writer and the
                        form handlers;
    - [Awaited]         the response action with awaits that may reject;
    - the theorems. *)

From Stdlib Require Import List NArith Bool String Ascii Lia Arith.
Import ListNotations.

Set Implicit Arguments.

(* ===================================================================== *)
(** ** JavaScript values *)
(* ===================================================================== *)

Module Js.

(** A JavaScript string is a finite sequence of 16-bit code units. *)
Definition JsString := list N.

(** String literals of the source are ASCII; [js] gives their code units. *)
Definition js (s : string) : JsString :=
    map N_of_ascii (list_ascii_of_string s).

(** [a === b] on strings. *)
Fixpoint jeqb (a b : JsString) : bool :=
    match a, b with
    | [], [] => true
    | x :: a', y :: b' => N.eqb x y && jeqb a' b'
    | _, _ => false
    end.

(** A string is falsy exactly when it is empty. *)
Definition truthy (s : JsString) : bool :=
    match s with [] => false | _ :: _ => true end.

(** [a || b] on strings. *)
Definition or_else (a b : JsString) : JsString :=
    if truthy a then a else b.

Arguments js : simpl never.

(** Surrogate ranges of UTF-16. *)
Definition is_lead_surrogate (c : N) : bool :=
    (N.leb 0xD800 c && N.leb c 0xDBFF)%N.
Definition is_trail_surrogate (c : N) : bool :=
    (N.leb 0xDC00 c && N.leb c 0xDFFF)%N.

(** [Array.from(str)]: the string iterator yields one element per code
      point; a lead surrogate directly followed by a trail surrogate is one
      element of two units, every other unit (lone surrogates included) is
      an element of its own. *)
Fixpoint Array_from (s : JsString) : list JsString :=
    match s with
    | [] => []
    | c :: rest =>
        match rest with
        | d :: rest' =>
            if is_lead_surrogate c && is_trail_surrogate d
            then [c; d] :: Array_from rest'
            else [c] :: Array_from rest
        | [] => [[c]]
        end
    end.

(** Values that can reach a [catch] clause in the modelled code: the
      error objects of the Supabase client and the [TypeError] of a
      property read on [null] or [undefined]. *)
Record PostgrestError := { code : JsString; message : JsString }.
Record AuthError := { auth_message : JsString }.

Inductive Thrown :=
  | ThrownPostgrest (e : PostgrestError)
  | ThrownTypeError (msg : JsString).

(** [error.message] of a caught value. *)
Definition message_of (t : Thrown) : JsString :=
    match t with
    | ThrownPostgrest e => message e
    | ThrownTypeError m => m
    end.

End Js.
Import Js.

(* ===================================================================== *)
(** ** zod *)
(* ===================================================================== *)

Module Zod.

Record ZodIssue := { path : JsString; issue_message : JsString }.

(** Result of [schema.safeParse(input)]: [{success: true, data}] or
      [{success: false, error: {issues}}]. *)
Inductive SafeParse :=
  | ParseOk
  | ParseErr (issues : list ZodIssue).

(** The [uuid()] check of [z.string()] and its default message belong to
      the zod package, which is not part of the repository; the actions
      are stated for any such check. *)
Record ZodLib := {
    uuid : JsString -> bool;
    uuid_message : JsString
  }.

(** [z.string().uuid()] on a string input, reported at object key [key]. *)
Definition string_uuid (z : ZodLib) (key s : JsString) : list ZodIssue :=
    if uuid z s then [] else [ {| path := key; issue_message := uuid_message z |} ].

(** [z.string().refine(check, {message})] on a string input. *)
Definition string_refine (check : JsString -> bool) (msg key s : JsString)
    : list ZodIssue :=
    if check s then [] else [ {| path := key; issue_message := msg |} ].

(** [z.object] parses its keys in declaration order and collects their
      issues in that order; the parse succeeds when there is none. *)
Definition object_result (issues : list ZodIssue) : SafeParse :=
    match issues with
    | [] => ParseOk
    | _ :: _ => ParseErr issues
    end.

Definition is_hex (c : N) : bool :=
    ((N.leb 48 c && N.leb c 57) || (N.leb 65 c && N.leb c 70)
     || (N.leb 97 c && N.leb c 102))%N.

Fixpoint hex_run (n : nat) (s : JsString) : option JsString :=
    match n with
    | O => Some s
    | S n' => match s with
              | c :: s' => if is_hex c then hex_run n' s' else None
              | [] => None
              end
    end.

Definition dash (s : JsString) : option JsString :=
    match s with
    | c :: s' => if N.eqb c 45 then Some s' else None
    | [] => None
    end.

Definition and_then {A B} (o : option A) (f : A -> option B) : option B :=
    match o with Some a => f a | None => None end.

(** Modelled from the spec: the "UUID-shaped string" of the data model,
      where the zod package is missing: five groups of 8, 4, 4, 4 and 12
      hexadecimal digits separated by dashes, and nothing else. *)
Definition uuid_shaped (s : JsString) : bool :=
    match and_then (and_then (and_then (and_then (and_then (and_then
          (and_then (and_then (hex_run 8 s) dash) (hex_run 4)) dash)
          (hex_run 4)) dash) (hex_run 4)) dash) (hex_run 12) with
    | Some [] => true
    | _ => false
    end.

Definition zod_default : ZodLib :=
    {| uuid := uuid_shaped; uuid_message := js "Invalid uuid" |}.

End Zod.
Import Zod.

(* ===================================================================== *)
(** ** The Supabase client surface used by the actions *)
(* ===================================================================== *)

Module Supabase.

Record User := { id : JsString }.

(** [{ data: { user }, error }] of [supabase.auth.getUser()]. *)
Record AuthReply := { user : option User; auth_error : option AuthError }.

(** A row of table [votes] as the actions write it: ballot votes carry
      [option_id], emoji reactions carry [content] and [type]; a column
      left out of the insert payload is [NULL]. *)
Record VoteRow := {
    vote_poll_id : JsString;
    vote_user_id : option JsString;
    vote_option_id : option JsString;
    vote_content : option JsString;
    vote_type : option JsString
  }.

(** Payload of the insert into [polls] and the stored row. *)
Record NewPoll := { title : JsString; created_by : JsString }.
Record PollRow := {
    poll_id : JsString;
    poll_title : JsString;
    poll_created_by : option JsString
  }.

Record OptionRow := {
    option_poll_id : JsString;
    option_text : JsString;
    option_order : nat
  }.

(** [{ data, error }] of a query ending in [.single()]. The two fields
      are read independently by the callers. *)
Record SingleReply (A : Type) := {
    reply_data : option A;
    reply_error : option PostgrestError
  }.
Arguments reply_data {A} _.
Arguments reply_error {A} _.

(** The calls an action makes on its client, one operation per chain of
      the source; every call may change the backend state. *)
Class Backend (St : Type) := {
(** [supabase.auth.getUser()] *)
    auth_getUser : St -> AuthReply * St;
(** [from('votes').select('id').eq('poll_id', p).eq('user_id', u)
        .eq('content', c).single()] *)
    votes_select_single :
      JsString -> JsString -> JsString -> St -> SingleReply VoteRow * St;
(** [from('votes').insert(row)], giving [{ error }] *)
    votes_insert : VoteRow -> St -> option PostgrestError * St;
(** [from('polls').insert(row).select('id').single()], [data.id] *)
    polls_insert_single : NewPoll -> St -> SingleReply JsString * St;
(** [from('poll_options').insert(rows)] *)
    poll_options_insert : list OptionRow -> St -> option PostgrestError * St;
(** [from('polls').delete().eq('id', id)] *)
    polls_delete_eq_id : JsString -> St -> option PostgrestError * St
  }.

(** Observable effects of an action, in the order they happen. *)
Inductive Event :=
  | AuthGetUser
  | VotesSelectSingle (p u c : JsString)
  | VotesInsert (row : VoteRow)
  | PollsInsert (row : NewPoll)
  | PollOptionsInsert (rows : list OptionRow)
  | PollsDelete (poll : JsString)
  | RevalidatePath (p : JsString)
  | ConsoleError (t : Thrown).

(** Calls that reach the data store (reads and writes). *)
Definition is_store_call (e : Event) : bool :=
    match e with
    | VotesSelectSingle _ _ _ | VotesInsert _ | PollsInsert _
    | PollOptionsInsert _ | PollsDelete _ => true
    | AuthGetUser | RevalidatePath _ | ConsoleError _ => false
    end.

(** Calls that ask the store to change. *)
Definition is_store_mutation (e : Event) : bool :=
    match e with
    | VotesInsert _ | PollsInsert _ | PollOptionsInsert _ | PollsDelete _ => true
    | _ => false
    end.

Definition is_votes_select (e : Event) : bool :=
    match e with VotesSelectSingle _ _ _ => true | _ => false end.

Definition is_votes_insert (e : Event) : bool :=
    match e with VotesInsert _ => true | _ => false end.

End Supabase.
Import Supabase.

(* ===================================================================== *)
(** ** The monad of a server action *)
(* ===================================================================== *)

Module Runtime.

(** How the evaluation of a piece of code ends. *)
Inductive Completion (A : Type) :=
  | Return (a : A)
  | Throw (t : Thrown).
Arguments Return {A} a.
Arguments Throw {A} t.

(** The world an action runs in: the backend and the log of effects. *)
Record World (St : Type) := { backend : St; trace : list Event }.
Arguments backend {St} _.
Arguments trace {St} _.

Definition Action (St A : Type) := World St -> Completion A * World St.

Section Monad.
Context {St : Type}.

Definition ret {A} (a : A) : Action St A := fun w => (Return a, w).

Definition throw {A} (t : Thrown) : Action St A := fun w => (Throw t, w).

Definition bind {A B} (m : Action St A) (k : A -> Action St B)
      : Action St B :=
      fun w =>
        match m w with
        | (Return a, w') => k a w'
        | (Throw t, w') => (Throw t, w')
        end.

(** [try { body } catch (error) { handler }] *)
Definition try_catch {A} (body : Action St A)
               (handler : Thrown -> Action St A) : Action St A :=
      fun w =>
        match body w with
        | (Return a, w') => (Return a, w')
        | (Throw t, w') => handler t w'
        end.

(** An effect that only leaves a mark in the log. *)
Definition emit (e : Event) : Action St unit :=
      fun w => (Return tt, {| backend := backend w; trace := trace w ++ [e] |}).

(** A call on the client: logged, then answered by the backend. *)
Definition call {A} (e : Event) (op : St -> A * St) : Action St A :=
      fun w =>
        let '(a, s) := op (backend w) in
        (Return a, {| backend := s; trace := trace w ++ [e] |}).

(** Running an action on a backend, from an empty log. *)
Definition run {A} (m : Action St A) (s : St) : Completion A * World St :=
      m {| backend := s; trace := [] |}.

(** What a run returned or threw, the backend it left, the calls it made. *)
Definition outcome {A} (r : Completion A * World St) : Completion A := fst r.
Definition final {A} (r : Completion A * World St) : St := backend (snd r).
Definition calls {A} (r : Completion A * World St) : list Event := trace (snd r).

End Monad.

Declare Scope action_scope.
Delimit Scope action_scope with action.
Notation "x <- m ;; k" := (bind m (fun x => k))
    (at level 61, m at next level, right associativity) : action_scope.
Notation "m ;; k" := (bind m (fun _ => k))
    (at level 61, right associativity) : action_scope.

End Runtime.
Import Runtime.
Local Open Scope action_scope.

(* ===================================================================== *)
(** ** app/lib/actions/response-actions.ts *)
(* ===================================================================== *)

Module ResponseActions.

(** [{ success: boolean; error?: string }] *)
Record Result := { success : bool; error : option JsString }.

(** The refinement of the [emoji] key:
    [(str) => Array.from(str).length === 1]. *)
Definition emoji_refinement (str : JsString) : bool :=
  Nat.eqb (List.length (Array_from str)) 1.

Section WithClient.
Context {St : Type} {client : Backend St} (z : ZodLib).

(** [emojiResponseSchema.safeParse({ pollId, emoji })] *)
Definition emojiResponseSchema (pollId emoji : JsString) : SafeParse :=
  object_result
    (string_uuid z (js "pollId") pollId
     ++ string_refine emoji_refinement
          (js "Emoji must be a single character.") (js "emoji") emoji).

Definition submitEmojiResponse (pollId emoji : JsString)
  : Action St Result :=
  auth <- call AuthGetUser auth_getUser ;;
  match user auth with
  | None =>
      ret {| success := false;
             error := Some (js "You must be logged in to respond.") |}
  | Some user =>
      match emojiResponseSchema pollId emoji with
      | ParseErr issues =>
          match issues with
          | issue :: _ =>
              ret {| success := false; error := Some (issue_message issue) |}
          | [] =>
              throw (ThrownTypeError
                       (js "Cannot read properties of undefined (reading 'message')"))
          end
      | ParseOk =>
          try_catch
            (sel <- call (VotesSelectSingle pollId (id user) emoji)
                         (votes_select_single pollId (id user) emoji) ;;
             match reply_error sel with
             | Some selectError =>
                 if negb (jeqb (code selectError) (js "PGRST116"))
                 then throw (ThrownPostgrest selectError)
                 else ret tt
             | None => ret tt
             end ;;
             match reply_data sel with
             | Some _ =>
                 ret {| success := false;
                        error := Some (js "You have already responded with this emoji.") |}
             | None =>
                 let row := {| vote_poll_id := pollId;
                               vote_user_id := Some (id user);
                               vote_option_id := None;
                               vote_content := Some emoji;
                               vote_type := Some (js "emoji") |} in
                 insertError <- call (VotesInsert row) (votes_insert row) ;;
                 match insertError with
                 | Some e => throw (ThrownPostgrest e)
                 | None =>
                     emit (RevalidatePath (js "/polls/" ++ pollId)) ;;
                     ret {| success := true; error := None |}
                 end
             end)
            (fun error =>
               emit (ConsoleError error) ;;
               ret {| success := false;
                      error := Some (or_else (message_of error)
                                 (js "An unexpected error occurred on the server.")) |})
      end
  end.

End WithClient.
End ResponseActions.

(* ===================================================================== *)
(** ** app/lib/actions/poll-actions.ts *)
(* ===================================================================== *)

Module PollActions.

(** [{ error: string | null }] *)
Record Result := { error : option JsString }.

(** Form fields in submission order; values are strings, as the casts of
    the source assume. *)
Definition FormData := list (JsString * JsString).

(** [formData.get(name)]: the first value of that name, or [null]. *)
Fixpoint formData_get (name : JsString) (fd : FormData) : option JsString :=
  match fd with
  | [] => None
  | (k, v) :: fd' => if jeqb k name then Some v else formData_get name fd'
  end.

(** [formData.getAll(name)] *)
Definition formData_getAll (name : JsString) (fd : FormData) : list JsString :=
  map snd (filter (fun kv => jeqb (fst kv) name) fd).

(** [options.map((option, index) => ({ poll_id, option_text, option_order }))] *)
Fixpoint optionsToInsert (pollId : JsString) (index : nat)
         (options : list JsString) : list OptionRow :=
  match options with
  | [] => []
  | option :: rest =>
      {| option_poll_id := pollId; option_text := option; option_order := index |}
        :: optionsToInsert pollId (S index) rest
  end.

Section WithClient.
Context {St : Type} {client : Backend St}.

Definition createPoll (formData : FormData) : Action St Result :=
  let question := formData_get (js "question") formData in
  let options := filter truthy (formData_getAll (js "options") formData) in
  match question with
  | None =>
      ret {| error := Some (js "Please provide a question and at least two options.") |}
  | Some question =>
      if negb (truthy question) || Nat.ltb (List.length options) 2
      then ret {| error := Some (js "Please provide a question and at least two options.") |}
      else
        auth <- call AuthGetUser auth_getUser ;;
        match auth_error auth with
        | Some userError => ret {| error := Some (auth_message userError) |}
        | None =>
            match user auth with
            | None =>
                ret {| error := Some (js "You must be logged in to create a poll.") |}
            | Some user =>
                let row := {| title := question; created_by := id user |} in
                ins <- call (PollsInsert row) (polls_insert_single row) ;;
                match reply_error ins with
                | Some pollError =>
                    ret {| error := Some (js "Failed to create poll: "
                                          ++ message pollError) |}
                | None =>
                    match reply_data ins with
                    | None =>
                        throw (ThrownTypeError
                                 (js "Cannot read properties of null (reading 'id')"))
                    | Some pollId =>
                        let rows := optionsToInsert pollId 0 options in
                        optionsError <- call (PollOptionsInsert rows)
                                             (poll_options_insert rows) ;;
                        match optionsError with
                        | Some e =>
                            ret {| error := Some (js "Failed to create poll options: "
                                                  ++ message e) |}
                        | None =>
                            emit (RevalidatePath (js "/polls")) ;;
                            ret {| error := None |}
                        end
                    end
                end
            end
        end
  end.

Definition submitVote (pollId optionId : JsString) : Action St Result :=
  auth <- call AuthGetUser auth_getUser ;;
  let row := {| vote_poll_id := pollId;
                vote_user_id := option_map id (user auth);
                vote_option_id := Some optionId;
                vote_content := None;
                vote_type := None |} in
  insertError <- call (VotesInsert row) (votes_insert row) ;;
  match insertError with
  | Some e => ret {| error := Some (message e) |}
  | None => ret {| error := None |}
  end.

Definition deletePoll (pollId : JsString) : Action St Result :=
  deleteError <- call (PollsDelete pollId) (polls_delete_eq_id pollId) ;;
  match deleteError with
  | Some e => ret {| error := Some (message e) |}
  | None =>
      emit (RevalidatePath (js "/polls")) ;;
      ret {| error := None |}
  end.

End WithClient.
End PollActions.

(* ===================================================================== *)
(** ** An executable store *)
(* ===================================================================== *)

(** The data store is an external service. [MemStore] is the reference
    backend the store-level properties are stated on: tables as lists of
    rows in insertion order, PostgREST's [.single()] convention, and the
    declarative rules the actions rely on: the uniqueness of votes, the
    owner-only delete policy and the cascading foreign keys, as the
    docstrings of [poll-actions.ts] name them and the setup SQL of the
    README writes them. Everything else a call can meet (network,
    insert policies, referential checks) is an injected failure: the call
    answers with the given error and changes nothing. *)
Module MemStore.

(** A failure injected into a call; [None] lets the call proceed. *)
Record Faults := {
  auth_fault : option AuthError;
  votes_select_fault : option PostgrestError;
  votes_insert_fault : option PostgrestError;
  polls_insert_fault : option PostgrestError;
  poll_options_insert_fault : option PostgrestError;
  polls_delete_fault : option PostgrestError
}.

Definition no_faults : Faults :=
  {| auth_fault := None; votes_select_fault := None;
     votes_insert_fault := None; polls_insert_fault := None;
     poll_options_insert_fault := None; polls_delete_fault := None |}.

Record Store := {
  (** the user of the request's session cookie, [auth.uid()] *)
  session : option User;
  polls : list PollRow;
  poll_options : list OptionRow;
  votes : list VoteRow;
  (** [gen_random_uuid()]: the identifiers the store will hand out *)
  uuid_gen : nat -> JsString;
  uuid_next : nat;
  faults : Faults
}.

(** SQL [column = value]: never true on [NULL]. *)
Definition col_eq (col : option JsString) (v : JsString) : bool :=
  match col with Some x => jeqb x v | None => false end.

(** SQL equality of two nullable columns, as a unique index compares
    them: [NULL] is distinct from everything. *)
Definition sql_eq (a b : option JsString) : bool :=
  match a, b with Some x, Some y => jeqb x y | _, _ => false end.

(** The filter [.eq('poll_id', p).eq('user_id', u).eq('content', c)]. *)
Definition matches_triple (p u c : JsString) (r : VoteRow) : bool :=
  jeqb (vote_poll_id r) p && col_eq (vote_user_id r) u
  && col_eq (vote_content r) c.

(** PostgREST's answer to [.single()] when the result is not one row. *)
Definition PGRST116 : PostgrestError :=
  {| code := js "PGRST116";
     message := js "JSON object requested, multiple (or no) rows returned" |}.

Definition unique_violation : PostgrestError :=
  {| code := js "23505";
     message := js "duplicate key value violates unique constraint" |}.

(** The discriminator of a row: emoji reactions are written with
    [type: 'emoji'], ballot votes without a type. *)
Definition is_emoji (r : VoteRow) : bool := col_eq (vote_type r) (js "emoji").

(** Modelled from the spec: the uniqueness rules of table [votes], whose
    definition for emoji rows is not in the repository. A ballot vote
    collides with a ballot vote of the same (poll, user), which is the
    README's [UNIQUE(poll_id, user_id)]; an emoji reaction collides with an
    emoji reaction of the same (poll, user, content). *)
Definition collides (new old : VoteRow) : bool :=
  if is_emoji new
  then is_emoji old && jeqb (vote_poll_id old) (vote_poll_id new)
       && sql_eq (vote_user_id old) (vote_user_id new)
       && sql_eq (vote_content old) (vote_content new)
  else negb (is_emoji old) && jeqb (vote_poll_id old) (vote_poll_id new)
       && sql_eq (vote_user_id old) (vote_user_id new).

(** The README's policy [FOR DELETE USING (auth.uid() = created_by)]. *)
Definition may_delete (s : Store) (p : PollRow) : bool :=
  match session s, poll_created_by p with
  | Some u, Some owner => jeqb (id u) owner
  | _, _ => false
  end.

(** The rows [delete().eq('id', pollId)] removes under that policy. *)
Definition deleted (s : Store) (pollId : JsString) (p : PollRow) : bool :=
  jeqb (poll_id p) pollId && may_delete s p.

(** [REFERENCES polls(id) ON DELETE CASCADE]: a row goes with the poll
    its foreign key names. *)
Definition cascades (s : Store) (pollId fk : JsString) : bool :=
  existsb (fun p => deleted s pollId p && jeqb (poll_id p) fk) (polls s).

Definition with_votes (s : Store) (v : list VoteRow) : Store :=
  {| session := session s; polls := polls s; poll_options := poll_options s;
     votes := v; uuid_gen := uuid_gen s; uuid_next := uuid_next s;
     faults := faults s |}.

Definition mem_auth_getUser (s : Store) : AuthReply * Store :=
  match auth_fault (faults s) with
  | Some e => ({| user := None; auth_error := Some e |}, s)
  | None => ({| user := session s; auth_error := None |}, s)
  end.

Definition mem_votes_select_single (p u c : JsString) (s : Store)
  : SingleReply VoteRow * Store :=
  match votes_select_fault (faults s) with
  | Some e => ({| reply_data := None; reply_error := Some e |}, s)
  | None =>
      match filter (matches_triple p u c) (votes s) with
      | [r] => ({| reply_data := Some r; reply_error := None |}, s)
      | _ => ({| reply_data := None; reply_error := Some PGRST116 |}, s)
      end
  end.

Definition mem_votes_insert (row : VoteRow) (s : Store)
  : option PostgrestError * Store :=
  match votes_insert_fault (faults s) with
  | Some e => (Some e, s)
  | None =>
      if existsb (collides row) (votes s)
      then (Some unique_violation, s)
      else (None, with_votes s (votes s ++ [row]))
  end.

Definition mem_polls_insert_single (row : NewPoll) (s : Store)
  : SingleReply JsString * Store :=
  match polls_insert_fault (faults s) with
  | Some e => ({| reply_data := None; reply_error := Some e |}, s)
  | None =>
      let pid := uuid_gen s (uuid_next s) in
      ({| reply_data := Some pid; reply_error := None |},
       {| session := session s;
          polls := polls s ++ [ {| poll_id := pid; poll_title := title row;
                                   poll_created_by := Some (created_by row) |} ];
          poll_options := poll_options s; votes := votes s;
          uuid_gen := uuid_gen s; uuid_next := S (uuid_next s);
          faults := faults s |})
  end.

Definition mem_poll_options_insert (rows : list OptionRow) (s : Store)
  : option PostgrestError * Store :=
  match poll_options_insert_fault (faults s) with
  | Some e => (Some e, s)
  | None =>
      (None,
       {| session := session s; polls := polls s;
          poll_options := poll_options s ++ rows; votes := votes s;
          uuid_gen := uuid_gen s; uuid_next := uuid_next s;
          faults := faults s |})
  end.

Definition mem_polls_delete_eq_id (pollId : JsString) (s : Store)
  : option PostgrestError * Store :=
  match polls_delete_fault (faults s) with
  | Some e => (Some e, s)
  | None =>
      (None,
       {| session := session s;
          polls := filter (fun p => negb (deleted s pollId p)) (polls s);
          poll_options :=
            filter (fun o => negb (cascades s pollId (option_poll_id o)))
                   (poll_options s);
          votes :=
            filter (fun v => negb (cascades s pollId (vote_poll_id v)))
                   (votes s);
          uuid_gen := uuid_gen s; uuid_next := uuid_next s;
          faults := faults s |})
  end.

#[export] Instance mem_backend : Backend Store := {
  auth_getUser := mem_auth_getUser;
  votes_select_single := mem_votes_select_single;
  votes_insert := mem_votes_insert;
  polls_insert_single := mem_polls_insert_single;
  poll_options_insert := mem_poll_options_insert;
  polls_delete_eq_id := mem_polls_delete_eq_id
}.

(** No failure is injected: every answer comes from the tables. *)
Definition healthy (s : Store) : Prop := faults s = no_faults.

(** Number of stored rows of a (poll, user, content) triple. *)
Definition triple_count (p u c : JsString) (s : Store) : nat :=
  List.length (filter (matches_triple p u c) (votes s)).

(** Number of stored ballot votes of a (poll, user) pair. *)
Definition is_ballot_of (p u : JsString) (r : VoteRow) : bool :=
  negb (is_emoji r) && jeqb (vote_poll_id r) p && col_eq (vote_user_id r) u.

Definition ballot_count (p u : JsString) (s : Store) : nat :=
  List.length (filter (is_ballot_of p u) (votes s)).

(** The uniqueness invariants of the data model. *)
Definition emoji_unique (s : Store) : Prop :=
  forall p u c,
    List.length (filter (fun r => is_emoji r && matches_triple p u c r) (votes s)) <= 1.

Definition ballot_unique (s : Store) : Prop :=
  forall p u, ballot_count p u s <= 1.

(** Only emoji reactions carry a content. *)
Definition content_typed (s : Store) : Prop :=
  forall r, In r (votes s) -> vote_content r <> None -> is_emoji r = true.

Definition store_invariant (s : Store) : Prop :=
  emoji_unique s /\ ballot_unique s /\ content_typed s.

(** The row [submitEmojiResponse] writes. *)
Definition emoji_row (pollId userId emoji : JsString) : VoteRow :=
  {| vote_poll_id := pollId; vote_user_id := Some userId;
     vote_option_id := None; vote_content := Some emoji;
     vote_type := Some (js "emoji") |}.

(** The row [submitVote] writes. *)
Definition ballot_row (pollId : JsString) (userId : option JsString)
           (optionId : JsString) : VoteRow :=
  {| vote_poll_id := pollId; vote_user_id := userId;
     vote_option_id := Some optionId; vote_content := None;
     vote_type := None |}.

(** The next request reaches the same tables with its own session and
    its own failures. *)
Definition next_request (who : option User) (f : Faults) (s : Store) : Store :=
  {| session := who; polls := polls s; poll_options := poll_options s;
     votes := votes s; uuid_gen := uuid_gen s; uuid_next := uuid_next s;
     faults := f |}.

(** What the actions can do to the store: the writes they issue, with
    the rows they build, and the passage from one request to the next. *)
Inductive writes : Store -> Store -> Prop :=
  | writes_emoji (p u c : JsString) (s : Store) :
      writes s (snd (mem_votes_insert (emoji_row p u c) s))
  | writes_ballot (p : JsString) (u : option JsString) (o : JsString) (s : Store) :
      writes s (snd (mem_votes_insert (ballot_row p u o) s))
  | writes_poll (row : NewPoll) (s : Store) :
      writes s (snd (mem_polls_insert_single row s))
  | writes_options (rows : list OptionRow) (s : Store) :
      writes s (snd (mem_poll_options_insert rows s))
  | writes_delete (pollId : JsString) (s : Store) :
      writes s (snd (mem_polls_delete_eq_id pollId s))
  | writes_request (who : option User) (f : Faults) (s : Store) :
      writes s (next_request who f s).

(** The stores that arise from one without votes. *)
Inductive reachable : Store -> Prop :=
  | reachable_init (s : Store) : votes s = [] -> reachable s
  | reachable_write (s s' : Store) : reachable s -> writes s s' -> reachable s'.

(** A store with nothing in it, for the given session. *)
Definition empty_store (who : option User) : Store :=
  {| session := who; polls := []; poll_options := []; votes := [];
     uuid_gen := fun n => js "poll-" ++ repeat 49%N n; uuid_next := 0;
     faults := no_faults |}.

End MemStore.

(* ===================================================================== *)
(** ** Sample inputs *)
(* ===================================================================== *)

Module RA := ResponseActions.
Module PA := PollActions.
Import MemStore.

Unset Implicit Arguments.

(** U+1F44D, U+1F44D U+1F3FD, and the family sequence
    U+1F468 U+200D U+1F469 U+200D U+1F467. *)
Definition thumbs_up : JsString := [0xD83D; 0xDC4D]%N.
Definition thumbs_up_medium_skin : JsString := [0xD83D; 0xDC4D; 0xD83C; 0xDFFD]%N.
Definition family_zwj : JsString :=
  [0xD83D; 0xDC68; 0x200D; 0xD83D; 0xDC69; 0x200D; 0xD83D; 0xDC67]%N.

Definition poll1 : JsString := js "11111111-1111-1111-1111-111111111111".
Definition u1 : User := {| id := js "u1" |}.
Definition u2 : User := {| id := js "u2" |}.

(** A store in which a concurrent request has won the race: the
    pre-check still sees no row, the insert meets the unique index. *)
Definition racing_store : Store :=
  {| session := Some u1; polls := []; poll_options := []; votes := [];
     uuid_gen := fun _ => poll1; uuid_next := 0;
     faults := {| auth_fault := None; votes_select_fault := None;
                  votes_insert_fault := Some unique_violation;
                  polls_insert_fault := None;
                  poll_options_insert_fault := None;
                  polls_delete_fault := None |} |}.

(** A store whose insert fails with an error that carries no message. *)
Definition silent_failure : PostgrestError := {| code := js "500"; message := [] |}.

Definition silent_store : Store :=
  {| session := Some u1; polls := []; poll_options := []; votes := [];
     uuid_gen := fun _ => poll1; uuid_next := 0;
     faults := {| auth_fault := None; votes_select_fault := None;
                  votes_insert_fault := Some silent_failure;
                  polls_insert_fault := None;
                  poll_options_insert_fault := None;
                  polls_delete_fault := None |} |}.

(** A store in which [u1] has already voted on [poll1]. *)
Definition voted_store : Store :=
  {| session := Some u1; polls := []; poll_options := [];
     votes := [ballot_row poll1 (Some (id u1)) (js "option-a")];
     uuid_gen := fun _ => poll1; uuid_next := 0; faults := no_faults |}.

(** The requester of a call on the store is the creator of poll [p]. *)
Definition requester_is_creator (s : Store) (p : PollRow) : Prop :=
  exists u, session s = Some u /\ poll_created_by p = Some (id u).

(** A poll of [u1] with two options and one vote, seen by requester [who]. *)
Definition poll_of_u1 : PollRow :=
  {| poll_id := poll1; poll_title := js "Tabs or spaces?";
     poll_created_by := Some (id u1) |}.

Definition populated_store (who : option User) : Store :=
  {| session := who; polls := [poll_of_u1];
     poll_options :=
       [ {| option_poll_id := poll1; option_text := js "Tabs"; option_order := 0 |};
         {| option_poll_id := poll1; option_text := js "Spaces"; option_order := 1 |} ];
     votes := [ballot_row poll1 (Some (id u2)) (js "option-a")];
     uuid_gen := fun _ => poll1; uuid_next := 1; faults := no_faults |}.

(** A form with a question and two options, one blank field between them. *)
Definition sample_form : PA.FormData :=
  [ (js "question", js "Tabs or spaces?");
    (js "options", js "Tabs"); (js "options", []); (js "options", js "Spaces") ].

(** A store that accepts the poll row and then refuses the option rows. *)
Definition options_refused : PostgrestError :=
  {| code := js "42501";
     message := js "new row violates row-level security policy" |}.

Definition half_failing_store : Store :=
  {| session := Some u1; polls := []; poll_options := []; votes := [];
     uuid_gen := fun _ => poll1; uuid_next := 0;
     faults := {| auth_fault := None; votes_select_fault := None;
                  votes_insert_fault := None; polls_insert_fault := None;
                  poll_options_insert_fault := Some options_refused;
                  polls_delete_fault := None |} |}.

(* ===================================================================== *)
(** ** The reading and updating actions of poll-actions.ts *)
(* ===================================================================== *)

Module PollQueries.

(** The query chains of [getUserPolls] and [getPollById], answering with
    [{ data, error }], and the one of [updatePoll], answering with
    [{ error }]. *)
Class QueryClient (St : Type) := {
  (** [from("polls").select("*").eq("created_by", u)
      .order("created_at", { ascending: false })] *)
  polls_select_by_creator :
    JsString -> St -> SingleReply (list PollRow) * St;
  (** [from("polls").select("*").eq("id", id).single()] *)
  polls_select_single_by_id : JsString -> St -> SingleReply PollRow * St
}.

Class UpdateClient (St : Type) := {
  (** [from("polls").update({ question, options }).eq("id", pollId)
      .eq("user_id", u)] *)
  polls_update :
    JsString -> JsString -> JsString -> list JsString -> St
    -> option PostgrestError * St
}.

(** A call on the client that the effect log has no entry for: it is
    answered by the backend and may change it. *)
Definition ask {St A : Type} (op : St -> A * St) : Action St A :=
  fun w =>
    let '(a, s) := op (backend w) in
    (Return a, {| backend := s; trace := trace w |}).

(** [{ polls, error }] and [{ poll, error }] *)
Record PollsResult := { polls : list PollRow; polls_error : option JsString }.
Record PollResult := { poll : option PollRow; poll_error : option JsString }.

Section WithClient.
Context {St : Type} {client : Backend St} {queries : QueryClient St}
        {updates : UpdateClient St}.

Definition getUserPolls : Action St PollsResult :=
  auth <- call AuthGetUser auth_getUser ;;
  match user auth with
  | None => ret {| polls := []; polls_error := Some (js "Not authenticated") |}
  | Some user =>
      sel <- ask (polls_select_by_creator (id user)) ;;
      match reply_error sel with
      | Some e => ret {| polls := []; polls_error := Some (message e) |}
      | None =>
          ret {| polls := match reply_data sel with
                          | Some data => data
                          | None => []
                          end;
                 polls_error := None |}
      end
  end.

Definition getPollById (pollId : JsString) : Action St PollResult :=
  sel <- ask (polls_select_single_by_id pollId) ;;
  match reply_error sel with
  | Some e => ret {| poll := None; poll_error := Some (message e) |}
  | None => ret {| poll := reply_data sel; poll_error := None |}
  end.

Definition updatePoll (pollId : JsString) (formData : PollActions.FormData)
  : Action St PollActions.Result :=
  let question := PollActions.formData_get (js "question") formData in
  let options :=
    filter truthy (PollActions.formData_getAll (js "options") formData) in
  match question with
  | None =>
      ret {| PollActions.error :=
               Some (js "Please provide a question and at least two options.") |}
  | Some question =>
      if negb (truthy question) || Nat.ltb (List.length options) 2
      then ret {| PollActions.error :=
                    Some (js "Please provide a question and at least two options.") |}
      else
        auth <- call AuthGetUser auth_getUser ;;
        match auth_error auth with
        | Some userError =>
            ret {| PollActions.error := Some (auth_message userError) |}
        | None =>
            match user auth with
            | None =>
                ret {| PollActions.error :=
                         Some (js "You must be logged in to update a poll.") |}
            | Some user =>
                updateError <- ask (polls_update pollId (id user) question options) ;;
                match updateError with
                | Some e => ret {| PollActions.error := Some (message e) |}
                | None => ret {| PollActions.error := None |}
                end
            end
        end
  end.

End WithClient.

(** The two selects on the executable store. Every poll is readable (the
    README's [FOR SELECT USING (true)]); rows are kept in insertion order,
    so newest first is the reverse of the table. *)
Definition mem_polls_select_by_creator (u : JsString) (s : Store)
  : SingleReply (list PollRow) * Store :=
  ({| reply_data :=
        Some (rev (filter (fun p => col_eq (poll_created_by p) u)
                          (MemStore.polls s)));
      reply_error := None |}, s).

Definition mem_polls_select_single_by_id (pollId : JsString) (s : Store)
  : SingleReply PollRow * Store :=
  match filter (fun p => jeqb (poll_id p) pollId) (MemStore.polls s) with
  | [p] => ({| reply_data := Some p; reply_error := None |}, s)
  | _ => ({| reply_data := None; reply_error := Some PGRST116 |}, s)
  end.

End PollQueries.

Module PQ := PollQueries.

(* ===================================================================== *)
(** ** lib/actions/auth-actions.ts *)
(* ===================================================================== *)

Module AuthActions.

(** [supabase.auth.signInWithPassword({ email, password })] and
    [supabase.auth.signUp({ email, password, options: { data: { name } } })],
    each giving [{ error }]; a form field that is absent is [null]. *)
Class AuthClient (St : Type) := {
  signInWithPassword :
    option JsString -> option JsString -> St -> option AuthError * St;
  signUp :
    option JsString -> option JsString -> option JsString -> St
    -> option AuthError * St
}.

(** An action either returns to its caller or ends in [redirect(path)],
    which hands control to the router. *)
Inductive Ending (A : Type) :=
  | Returns (a : A)
  | Redirects (to : JsString).
Arguments Returns {A} a.
Arguments Redirects {A} to.

(** [a === b] on nullable strings. *)
Definition strict_eq (a b : option JsString) : bool :=
  match a, b with
  | Some x, Some y => jeqb x y
  | None, None => true
  | _, _ => false
  end.

Section WithClient.
Context {St : Type} {auth : AuthClient St}.

(** [revalidatePath('/', 'layout')] is logged by its path. *)
Definition login (formData : PollActions.FormData)
  : Action St (Ending PollActions.Result) :=
  let email := PollActions.formData_get (js "email") formData in
  let password := PollActions.formData_get (js "password") formData in
  error <- PQ.ask (signInWithPassword email password) ;;
  match error with
  | Some _ =>
      ret (Returns {| PollActions.error := Some (js "Invalid email or password.") |})
  | None =>
      emit (RevalidatePath (js "/")) ;;
      ret (Redirects (js "/polls"))
  end.

Definition register (formData : PollActions.FormData)
  : Action St PollActions.Result :=
  let name := PollActions.formData_get (js "name") formData in
  let email := PollActions.formData_get (js "email") formData in
  let password := PollActions.formData_get (js "password") formData in
  let confirmPassword := PollActions.formData_get (js "confirmPassword") formData in
  if negb (strict_eq password confirmPassword)
  then ret {| PollActions.error := Some (js "Passwords do not match") |}
  else
    error <- PQ.ask (signUp email password name) ;;
    match error with
    | Some e => ret {| PollActions.error := Some (auth_message e) |}
    | None => ret {| PollActions.error := None |}
    end.

End WithClient.
End AuthActions.

Module AA := AuthActions.

(* ===================================================================== *)
(** ** The cookie writer of the session middleware *)
(* ===================================================================== *)

Module Middleware.

(** The characters the class [[a-zA-Z0-9_\-]] admits. *)
Definition is_name_char (c : N) : bool :=
  ((N.leb 97 c && N.leb c 122) || (N.leb 65 c && N.leb c 90)
   || (N.leb 48 c && N.leb c 57) || N.eqb c 95 || N.eqb c 45)%N.

(** [String(name).replace(/[^a-zA-Z0-9_\-]/g, '')] *)
Definition safeName (name : JsString) : JsString := filter is_name_char name.

(** [String(value).replace(/[\r\n]/g, '')] *)
Definition safeValue (value : JsString) : JsString :=
  filter (fun c => negb (N.eqb c 13 || N.eqb c 10)) value.

(** An element of [cookiesToSet]; the type of [options] is left open. *)
Record CookieToSet (Options : Type) := {
  name : JsString;
  value : JsString;
  options : Options
}.
Arguments name {Options} _.
Arguments value {Options} _.
Arguments options {Options} _.

(** The calls [request.cookies.set(safeName, safeValue)] of the first
    loop of [setAll], in order. *)
Definition setAll_request {Options : Type}
           (cookiesToSet : list (CookieToSet Options))
  : list (JsString * JsString) :=
  map (fun c => (safeName (name c), safeValue (value c))) cookiesToSet.

(** The calls [supabaseResponse.cookies.set(safeName, safeValue, options)]
    of the second loop, in order. *)
Definition setAll_response {Options : Type}
           (cookiesToSet : list (CookieToSet Options))
  : list (JsString * JsString * Options) :=
  map (fun c => (safeName (name c), safeValue (value c), options c)) cookiesToSet.

End Middleware.

(* ===================================================================== *)
(** ** app/(dashboard)/create/PollCreateForm.tsx *)
(* ===================================================================== *)

Module PollCreateForm.

(** [useState(["", ""])] *)
Definition initial_options : list JsString := [[]; []].

(** [opts.map((opt, i) => (i === idx ? value : opt))], from index [i]. *)
Fixpoint map_at (i idx : nat) (value : JsString) (opts : list JsString)
  : list JsString :=
  match opts with
  | [] => []
  | opt :: rest =>
      (if Nat.eqb i idx then value else opt) :: map_at (S i) idx value rest
  end.

Definition handleOptionChange (idx : nat) (value : JsString)
           (opts : list JsString) : list JsString :=
  map_at 0 idx value opts.

(** [[...opts, ""]] *)
Definition addOption (opts : list JsString) : list JsString := opts ++ [[]].

(** [opts.filter((_, i) => i !== idx)], from index [i]. *)
Fixpoint filter_at (i idx : nat) (opts : list JsString) : list JsString :=
  match opts with
  | [] => []
  | opt :: rest =>
      if negb (Nat.eqb i idx) then opt :: filter_at (S i) idx rest
      else filter_at (S i) idx rest
  end.

(** [removeOption]: the guard reads the rendered [options], the updater
    works on the current [opts]; without the guard nothing is set. *)
Definition removeOption (options : list JsString) (idx : nat)
           (opts : list JsString) : list JsString :=
  if Nat.ltb 2 (List.length options) then filter_at 0 idx opts else opts.

(** What the user does to the option fields. *)
Inductive Edit :=
  | Change (idx : nat) (value : JsString)
  | Add
  | Remove (idx : nat).

(** One edit on a form whose rendered options are the current ones. *)
Definition edit (opts : list JsString) (e : Edit) : list JsString :=
  match e with
  | Change idx value => handleOptionChange idx value opts
  | Add => addOption opts
  | Remove idx => removeOption opts idx opts
  end.

(** The fields the form submits: the question input, then one ["options"]
    input per option, in order. *)
Definition submitted (question : JsString) (opts : list JsString)
  : PollActions.FormData :=
  (js "question", question) :: map (fun o => (js "options", o)) opts.

End PollCreateForm.

Module Form := PollCreateForm.

(* ===================================================================== *)
(** ** app/(dashboard)/polls/PollActions.tsx *)
(* ===================================================================== *)

Module PollCard.

(** [currentUserId && currentUserId === poll.created_by]: whether the
    Edit and Delete buttons of a poll card are rendered. *)
Definition shows_management (currentUserId : option JsString)
           (created_by : JsString) : bool :=
  match currentUserId with
  | Some uid => truthy uid && jeqb uid created_by
  | None => false
  end.

End PollCard.

#[global] Instance mem_queries : PQ.QueryClient Store := {
  polls_select_by_creator := PQ.mem_polls_select_by_creator;
  polls_select_single_by_id := PQ.mem_polls_select_single_by_id
}.

(** A form state with one blank field. *)
Definition three_options : list JsString := [js "Tabs"; []; js "Spaces"].

(** The update of [updatePoll] against the README's [polls] table, which
    has no [question], [options] or [user_id] column: the store answers
    with an error and changes nothing. *)
Definition unknown_column : PostgrestError :=
  {| code := js "PGRST204";
     message := js "Could not find the 'options' column of 'polls' in the schema cache" |}.

#[global] Instance mem_updates : PQ.UpdateClient Store := {
  polls_update := fun _ _ _ _ s => (Some unknown_column, s)
}.

(** A sign-in provider that knows its accounts as (email, password)
    pairs: a sign-in needs both fields and a known pair, a sign-up needs
    both fields and an email that is not taken. *)
Definition Accounts := list (JsString * JsString).

Definition known (email password : JsString) (accounts : Accounts) : bool :=
  existsb (fun a => jeqb (fst a) email && jeqb (snd a) password) accounts.

Definition accounts_signIn (email password : option JsString) (accounts : Accounts)
  : option AuthError * Accounts :=
  match email, password with
  | Some e, Some pw =>
      if known e pw accounts then (None, accounts)
      else (Some {| auth_message := js "Invalid login credentials" |}, accounts)
  | _, _ => (Some {| auth_message := js "missing email or phone" |}, accounts)
  end.

Definition accounts_signUp (email password name : option JsString)
           (accounts : Accounts) : option AuthError * Accounts :=
  match email, password with
  | Some e, Some pw =>
      if existsb (fun a => jeqb (fst a) e) accounts
      then (Some {| auth_message := js "User already registered" |}, accounts)
      else (None, accounts ++ [(e, pw)])
  | _, _ =>
      (Some {| auth_message := js "Signup requires a valid password" |}, accounts)
  end.

#[global] Instance accounts_auth : AA.AuthClient Accounts := {
  signInWithPassword := accounts_signIn;
  signUp := accounts_signUp
}.

Definition one_account : Accounts := [(js "ada@example.org", js "s3cret")].

Definition login_form (email password : JsString) : PA.FormData :=
  [(js "email", email); (js "password", password)].

(* ===================================================================== *)
(** ** Awaited calls that may reject *)
(* ===================================================================== *)

(** [ResponseActions.submitEmojiResponse] follows the action when every
    awaited call resolves. Here each [await] may also reject, and a
    rejection is thrown where the [await] stands: inside the [try] block
    it reaches the [catch] clause, before it there is nothing to catch
    it. *)
Module Awaited.

(** The awaited calls of [submitEmojiResponse], each resolving with its
    reply ([Return]) or rejecting with what it throws ([Throw]); the
    construction of the client resolves with nothing to report ([None])
    or rejects. An [Error] is kept by its message. *)
Class Client (St : Type) := {
  (** [await createSupabaseServerClient()] *)
  createSupabaseServerClient : St -> option Thrown * St;
  (** [await supabase.auth.getUser()] *)
  getUser : St -> Completion AuthReply * St;
  (** [await supabase.from('votes').select('id')....single()] *)
  select_single :
    JsString -> JsString -> JsString -> St
    -> Completion (SingleReply VoteRow) * St;
  (** [await supabase.from('votes').insert(row)] *)
  insert : VoteRow -> St -> Completion (option PostgrestError) * St
}.

(** An awaited call on the client: logged, then resolved or rejected. *)
Definition await {St A : Type} (e : Event) (op : St -> Completion A * St)
  : Action St A :=
  fun w =>
    (fst (op (backend w)),
     {| backend := snd (op (backend w)); trace := trace w ++ [e] |}).

(** The awaited construction of the client, which the log has no entry
    for. *)
Definition construct {St : Type} (op : St -> option Thrown * St)
  : Action St unit :=
  fun w =>
    (match fst (op (backend w)) with
     | Some t => Throw t
     | None => Return tt
     end,
     {| backend := snd (op (backend w)); trace := trace w |}).

Section WithClient.
Context {St : Type} {client : Client St} (z : ZodLib).

Definition submitEmojiResponse (pollId emoji : JsString)
  : Action St ResponseActions.Result :=
  construct createSupabaseServerClient ;;
  auth <- await AuthGetUser getUser ;;
  match user auth with
  | None =>
      ret {| ResponseActions.success := false;
             ResponseActions.error := Some (js "You must be logged in to respond.") |}
  | Some user =>
      match ResponseActions.emojiResponseSchema z pollId emoji with
      | ParseErr issues =>
          match issues with
          | issue :: _ =>
              ret {| ResponseActions.success := false;
                     ResponseActions.error := Some (issue_message issue) |}
          | [] =>
              throw (ThrownTypeError
                       (js "Cannot read properties of undefined (reading 'message')"))
          end
      | ParseOk =>
          try_catch
            (sel <- await (VotesSelectSingle pollId (id user) emoji)
                          (select_single pollId (id user) emoji) ;;
             match reply_error sel with
             | Some selectError =>
                 if negb (jeqb (code selectError) (js "PGRST116"))
                 then throw (ThrownPostgrest selectError)
                 else ret tt
             | None => ret tt
             end ;;
             match reply_data sel with
             | Some _ =>
                 ret {| ResponseActions.success := false;
                        ResponseActions.error :=
                          Some (js "You have already responded with this emoji.") |}
             | None =>
                 let row := {| vote_poll_id := pollId;
                               vote_user_id := Some (id user);
                               vote_option_id := None;
                               vote_content := Some emoji;
                               vote_type := Some (js "emoji") |} in
                 insertError <- await (VotesInsert row) (insert row) ;;
                 match insertError with
                 | Some e => throw (ThrownPostgrest e)
                 | None =>
                     emit (RevalidatePath (js "/polls/" ++ pollId)) ;;
                     ret {| ResponseActions.success := true;
                            ResponseActions.error := None |}
                 end
             end)
            (fun error =>
               emit (ConsoleError error) ;;
               ret {| ResponseActions.success := false;
                      ResponseActions.error :=
                        Some (or_else (message_of error)
                                (js "An unexpected error occurred on the server.")) |})
      end
  end.

End WithClient.

(** A client all of whose awaited calls resolve, with the replies of a
    backend. *)
Definition resolving {St : Type} (replies : Backend St) : Client St :=
  {| createSupabaseServerClient := fun s => (None, s);
     getUser := fun s => (Return (fst (auth_getUser s)), snd (auth_getUser s));
     select_single := fun p u c s =>
       (Return (fst (votes_select_single p u c s)),
        snd (votes_select_single p u c s));
     insert := fun row s =>
       (Return (fst (votes_insert row s)), snd (votes_insert row s)) |}.

(** A deployment of the executable store: the environment may lack the
    project's URL and key, in which case the client cannot be built, and
    each later call may be made to reject; otherwise the store answers. *)
Record Hosted := {
  configured : bool;
  getUser_rejection : option Thrown;
  select_rejection : option Thrown;
  insert_rejection : option Thrown;
  store : Store
}.

Definition with_store (h : Hosted) (s : Store) : Hosted :=
  {| configured := configured h; getUser_rejection := getUser_rejection h;
     select_rejection := select_rejection h;
     insert_rejection := insert_rejection h; store := s |}.

Definition missing_environment : Thrown :=
  ThrownTypeError
    (js "Your project's URL and Key are required to create a Supabase client!").

Definition hosted_client : Client Hosted :=
  {| createSupabaseServerClient := fun h =>
       (if configured h then None else Some missing_environment, h);
     getUser := fun h =>
       match getUser_rejection h with
       | Some t => (Throw t, h)
       | None => (Return (fst (mem_auth_getUser (store h))),
                  with_store h (snd (mem_auth_getUser (store h))))
       end;
     select_single := fun p u c h =>
       match select_rejection h with
       | Some t => (Throw t, h)
       | None => (Return (fst (mem_votes_select_single p u c (store h))),
                  with_store h (snd (mem_votes_select_single p u c (store h))))
       end;
     insert := fun row h =>
       match insert_rejection h with
       | Some t => (Throw t, h)
       | None => (Return (fst (mem_votes_insert row (store h))),
                  with_store h (snd (mem_votes_insert row (store h))))
       end |}.

(** The store of a signed-in user behind an environment without the
    project's URL and key. *)
Definition unconfigured : Hosted :=
  {| configured := false; getUser_rejection := None; select_rejection := None;
     insert_rejection := None; store := empty_store (Some u1) |}.

(** A configured deployment whose insert rejects with an error that has
    no message. *)
Definition insert_rejecting : Hosted :=
  {| configured := true; getUser_rejection := None; select_rejection := None;
     insert_rejection := Some (ThrownTypeError []);
     store := empty_store (Some u1) |}.

End Awaited.

(* ===================================================================== *)
(** ** Facts about strings and the validator *)
(* ===================================================================== *)

Lemma jeqb_refl (a : JsString) : jeqb a a = true.
Proof.
  induction a as [|x a IH]; simpl; [reflexivity|].
  now rewrite N.eqb_refl, IH.
Qed.

Lemma jeqb_eq (a b : JsString) : jeqb a b = true <-> a = b.
Proof.
  split; [|intros ->; apply jeqb_refl].
  revert b; induction a as [|x a IH]; intros [|y b]; simpl; try discriminate; auto.
  intros H; apply andb_true_iff in H as [Hx Hr].
  apply N.eqb_eq in Hx; apply IH in Hr; congruence.
Qed.

Lemma col_eq_true (col : option JsString) (v : JsString) :
  col_eq col v = true <-> col = Some v.
Proof.
  destruct col as [x|]; simpl.
  - rewrite jeqb_eq; split; congruence.
  - split; discriminate.
Qed.

(** The iterator yields something for every non-empty string. *)
Lemma Array_from_cons (c : N) (s : JsString) :
  exists e es, Array_from (c :: s) = e :: es.
Proof.
  destruct s as [|d s]; simpl; [eauto|].
  destruct (is_lead_surrogate c && is_trail_surrogate d); eauto.
Qed.

Lemma Array_from_step (c d : N) (rest : JsString) :
  Array_from (c :: d :: rest) =
  if is_lead_surrogate c && is_trail_surrogate d
  then [c; d] :: Array_from rest
  else [c] :: Array_from (d :: rest).
Proof. reflexivity. Qed.

(** One code point is one unit, or a surrogate pair. *)
Lemma Array_from_length_1 (s : JsString) :
  List.length (Array_from s) = 1 <->
  (exists c, s = [c]) \/
  (exists hi lo, s = [hi; lo] /\ is_lead_surrogate hi = true
                 /\ is_trail_surrogate lo = true).
Proof.
  split.
  - destruct s as [|c [|d rest]]; [discriminate | eauto |].
    rewrite Array_from_step.
    destruct (is_lead_surrogate c && is_trail_surrogate d) eqn:Hp.
    + apply andb_true_iff in Hp as [Hc Hd].
      destruct rest as [|e rest]; [intros _; right; eauto|].
      destruct (Array_from_cons e rest) as (x & xs & ->); discriminate.
    + destruct (Array_from_cons d rest) as (x & xs & ->); discriminate.
  - intros [[c ->] | (hi & lo & -> & Hh & Hl)]; simpl; [reflexivity|].
    now rewrite Hh, Hl.
Qed.

Lemma emoji_refinement_true (s : JsString) :
  RA.emoji_refinement s = true <-> List.length (Array_from s) = 1.
Proof. unfold RA.emoji_refinement. apply Nat.eqb_eq. Qed.

(** C10. The emoji key of [emojiResponseSchema] accepts a string exactly
    when [Array.from] of it has length 1, that is when it is one code
    point: one code unit or one surrogate pair. So the two-unit thumbs-up
    and the plain letter "a" pass, while a skin-tone sequence, a ZWJ
    sequence and the empty string fail; with a well-formed poll identifier
    a failing emoji makes [safeParse] report the single issue
    "Emoji must be a single character.". *)
Theorem C10_emoji_single_code_point :
  forall (z : ZodLib) (pollId emoji : JsString),
    (RA.emoji_refinement emoji = true <-> List.length (Array_from emoji) = 1)
    /\ (RA.emoji_refinement emoji = true <->
        (exists c, emoji = [c]) \/
        (exists hi lo, emoji = [hi; lo] /\ is_lead_surrogate hi = true
                       /\ is_trail_surrogate lo = true))
    /\ (uuid z pollId = true ->
        (RA.emojiResponseSchema z pollId emoji = ParseOk
         <-> RA.emoji_refinement emoji = true)
        /\ (RA.emoji_refinement emoji = false ->
            RA.emojiResponseSchema z pollId emoji =
            ParseErr [ {| path := js "emoji";
                          issue_message := js "Emoji must be a single character." |} ]))
    /\ RA.emoji_refinement thumbs_up = true
    /\ RA.emoji_refinement (js "a") = true
    /\ RA.emoji_refinement thumbs_up_medium_skin = false
    /\ RA.emoji_refinement family_zwj = false
    /\ RA.emoji_refinement [] = false.
Proof.
  intros z pollId emoji.
  split; [apply emoji_refinement_true|].
  split; [rewrite emoji_refinement_true; apply Array_from_length_1|].
  split; [|repeat split; reflexivity].
  intros Hu. unfold RA.emojiResponseSchema, string_uuid, string_refine.
  rewrite Hu; simpl.
  destruct (RA.emoji_refinement emoji); simpl; split;
    try reflexivity; try discriminate; try tauto.
  split; [discriminate|discriminate].
Qed.

Lemma C10_witness :
  uuid zod_default (js "11111111-1111-1111-1111-111111111111") = true
  /\ RA.emojiResponseSchema zod_default
       (js "11111111-1111-1111-1111-111111111111") thumbs_up = ParseOk
  /\ RA.emojiResponseSchema zod_default
       (js "11111111-1111-1111-1111-111111111111") thumbs_up_medium_skin =
     ParseErr [ {| path := js "emoji";
                   issue_message := js "Emoji must be a single character." |} ].
Proof.
  pose proof (C10_emoji_single_code_point zod_default
                (js "11111111-1111-1111-1111-111111111111") thumbs_up)
    as (_ & _ & Hok & _).
  pose proof (C10_emoji_single_code_point zod_default
                (js "11111111-1111-1111-1111-111111111111") thumbs_up_medium_skin)
    as (_ & _ & Hbad & _).
  split; [reflexivity|].
  split.
  - apply (proj1 (Hok eq_refl)). reflexivity.
  - apply (proj2 (Hbad eq_refl)). reflexivity.
Defined.

(* ===================================================================== *)
(** ** submitEmojiResponse on any backend *)
(* ===================================================================== *)

Lemma call_eq {St A} (e : Event) (op : St -> A * St) (w : World St) :
  call e op w =
  (Return (fst (op (backend w))),
   {| backend := snd (op (backend w)); trace := trace w ++ [e] |}).
Proof. unfold call. now destruct (op (backend w)). Qed.

Ltac unfold_action :=
  unfold run, outcome, calls, final, RA.submitEmojiResponse, PA.createPoll,
    PA.submitVote, PA.deletePoll, bind, ret, throw, try_catch, emit;
  repeat first [ rewrite call_eq
               | progress cbn [backend trace fst snd app negb] ].

Section AnyBackend.
Context {St : Type} {client : Backend St} (z : ZodLib).

Lemma safeParse_bad_uuid (pollId emoji : JsString) :
  uuid z pollId = false ->
  exists rest,
    RA.emojiResponseSchema z pollId emoji =
    ParseErr ({| path := js "pollId"; issue_message := uuid_message z |} :: rest).
Proof.
  intros Hu. unfold RA.emojiResponseSchema, string_uuid. rewrite Hu.
  cbn [app object_result]. eauto.
Qed.

(** A failed parse always carries an issue, and its first issue has one
    of the two messages of the schema. *)
Lemma safeParse_issue (pollId emoji : JsString) (issues : list ZodIssue) :
  RA.emojiResponseSchema z pollId emoji = ParseErr issues ->
  exists i rest, issues = i :: rest
    /\ (issue_message i = uuid_message z
        \/ issue_message i = js "Emoji must be a single character.").
Proof.
  unfold RA.emojiResponseSchema, string_uuid, string_refine.
  destruct (uuid z pollId), (RA.emoji_refinement emoji); cbn [app object_result];
    intros H; inversion H; subst; eauto.
Qed.

(** What the [catch] clause makes of a failing store call: the error's own
    message, or the fixed text when that message is empty. *)
Lemma store_failure_reported (s : St) (u : User) (pollId emoji : JsString) :
  user (fst (auth_getUser s)) = Some u ->
  RA.emojiResponseSchema z pollId emoji = ParseOk ->
  let sel := votes_select_single pollId (id u) emoji (snd (auth_getUser s)) in
  let ins := votes_insert (emoji_row pollId (id u) emoji) (snd sel) in
  let r := run (RA.submitEmojiResponse z pollId emoji) s in
  let reported (e : PostgrestError) :=
    Return {| RA.success := false;
              RA.error := Some (or_else (message e)
                             (js "An unexpected error occurred on the server.")) |} in
  (forall e, reply_error (fst sel) = Some e ->
             jeqb (code e) (js "PGRST116") = false ->
             outcome r = reported e
             /\ filter is_store_mutation (calls r) = [])
  /\ (forall e, reply_data (fst sel) = None ->
                (forall e', reply_error (fst sel) = Some e' ->
                            jeqb (code e') (js "PGRST116") = true) ->
                fst ins = Some e ->
                outcome r = reported e /\ final r = snd ins).
Proof.
  intros Hu Hp. unfold emoji_row. unfold_action. rewrite Hu, Hp. unfold_action.
  split.
  - intros e He Hc. rewrite He, Hc. cbn. auto.
  - intros e Hd Hc Hi. rewrite Hd.
    destruct (reply_error _) as [e'|] eqn:He'.
    + rewrite (Hc e' eq_refl). unfold_action. rewrite Hi. cbn. auto.
    + unfold_action. rewrite Hi. cbn. auto.
Qed.

End AnyBackend.

Lemma or_else_nonempty (a b : JsString) : b <> [] -> or_else a b <> [].
Proof. unfold or_else. destruct a; simpl; [auto | discriminate]. Qed.

(** C3. Without a session user [submitEmojiResponse] answers
    "You must be logged in to respond." whatever the poll identifier and
    the emoji are, valid or not; its only call is the session lookup, so
    the data store is never reached and the backend is left as the lookup
    left it. *)
Theorem C3_unauthenticated_before_validation :
  forall (St : Type) (client : Backend St) (z : ZodLib) (s : St)
         (pollId emoji : JsString),
    user (fst (auth_getUser s)) = None ->
    let r := run (RA.submitEmojiResponse z pollId emoji) s in
    outcome r = Return {| RA.success := false;
                          RA.error := Some (js "You must be logged in to respond.") |}
    /\ calls r = [AuthGetUser]
    /\ filter is_store_call (calls r) = []
    /\ final r = snd (auth_getUser s).
Proof.
  intros St client z s pollId emoji Hu. unfold_action. rewrite Hu.
  cbn. auto.
Qed.

(** An unauthenticated call with a malformed identifier and a two-letter
    emoji is answered as unauthenticated, not as invalid. *)
Lemma C3_witness :
  user (fst (auth_getUser (empty_store None))) = None
  /\ RA.emojiResponseSchema zod_default (js "not-a-uuid") (js "ab") <> ParseOk
  /\ outcome (run (RA.submitEmojiResponse zod_default (js "not-a-uuid") (js "ab"))
                  (empty_store None)) =
     Return {| RA.success := false;
               RA.error := Some (js "You must be logged in to respond.") |}
  /\ final (run (RA.submitEmojiResponse zod_default (js "not-a-uuid") (js "ab"))
                (empty_store None)) = empty_store None.
Proof.
  split; [reflexivity|].
  split; [vm_compute; discriminate|].
  pose proof (@C3_unauthenticated_before_validation Store mem_backend zod_default
                (empty_store None) (js "not-a-uuid") (js "ab") eq_refl)
    as (Hr & _ & _ & Hf).
  split; [exact Hr | exact Hf].
Defined.

(** C4. For a signed-in user and a poll identifier that fails the UUID
    check, [submitEmojiResponse] answers with the message of the
    identifier issue, which is the first issue of the parse whatever the
    emoji is, and makes no call on the data store. *)
Theorem C4_malformed_identifier_rejected :
  forall (St : Type) (client : Backend St) (z : ZodLib) (s : St) (u : User)
         (pollId emoji : JsString),
    user (fst (auth_getUser s)) = Some u ->
    uuid z pollId = false ->
    let r := run (RA.submitEmojiResponse z pollId emoji) s in
    (exists rest,
        RA.emojiResponseSchema z pollId emoji =
        ParseErr ({| path := js "pollId"; issue_message := uuid_message z |} :: rest))
    /\ outcome r = Return {| RA.success := false;
                             RA.error := Some (uuid_message z) |}
    /\ calls r = [AuthGetUser]
    /\ filter is_store_call (calls r) = [].
Proof.
  intros St client z s u pollId emoji Hu Hbad.
  destruct (safeParse_bad_uuid z pollId emoji Hbad) as (rest & Hp).
  split; [eauto|].
  unfold_action. rewrite Hu, Hp. cbn. auto.
Qed.

(** Identifier "not-a-uuid" together with the two-letter emoji "ab": the
    identifier message is the one reported. *)
Lemma C4_witness :
  user (fst (auth_getUser (empty_store (Some u1)))) = Some u1
  /\ uuid zod_default (js "not-a-uuid") = false
  /\ RA.emoji_refinement (js "ab") = false
  /\ outcome (run (RA.submitEmojiResponse zod_default (js "not-a-uuid") (js "ab"))
                  (empty_store (Some u1))) =
     Return {| RA.success := false; RA.error := Some (js "Invalid uuid") |}
  /\ calls (run (RA.submitEmojiResponse zod_default (js "not-a-uuid") (js "ab"))
                (empty_store (Some u1))) = [AuthGetUser].
Proof.
  split; [reflexivity|].
  split; [reflexivity|].
  split; [reflexivity|].
  pose proof (@C4_malformed_identifier_rejected Store mem_backend zod_default
                (empty_store (Some u1)) u1 (js "not-a-uuid") (js "ab")
                eq_refl eq_refl) as (_ & Hr & Hc & _).
  split; [exact Hr | exact Hc].
Defined.

(** Every run of [submitEmojiResponse] returns; nothing escapes the
    [try] block or the code before it. *)
Lemma submitEmojiResponse_returns
      (St : Type) (client : Backend St) (z : ZodLib) (s : St)
      (pollId emoji : JsString) :
  uuid_message z <> [] ->
  exists res,
    outcome (run (RA.submitEmojiResponse z pollId emoji) s) = Return res
    /\ (RA.success res = true -> RA.error res = None)
    /\ (RA.success res = false -> exists m, RA.error res = Some m /\ m <> []).
Proof.
  intros Hz.
  assert (Hfb : js "An unexpected error occurred on the server." <> [])
    by (vm_compute; discriminate).
  unfold_action.
  destruct (user (fst (auth_getUser s))) as [u|].
  - destruct (RA.emojiResponseSchema z pollId emoji) as [|issues] eqn:Hp.
    + unfold_action.
      destruct (reply_error _) as [e|];
        [destruct (jeqb (code e) (js "PGRST116"))|]; unfold_action;
        try (eexists; split; [reflexivity|]; cbn; split;
             [discriminate | intros _; eexists; split;
                             [reflexivity | now apply or_else_nonempty]]).
      all: destruct (reply_data _); unfold_action;
        try (eexists; split; [reflexivity|]; cbn; split;
             [discriminate | intros _; eexists; split;
                             [reflexivity | vm_compute; discriminate]]).
      all: destruct (fst (votes_insert _ _)); unfold_action;
        eexists; (split; [reflexivity|]); cbn; split;
          try discriminate; try reflexivity;
          intros _; eexists; split; try reflexivity; now apply or_else_nonempty.
    + destruct (safeParse_issue z pollId emoji _ Hp) as (i & rest & -> & Hm).
      eexists; split; [reflexivity|]. cbn. split; [discriminate|].
      intros _. eexists; split; [reflexivity|].
      destruct Hm as [-> | ->]; [assumption | vm_compute; discriminate].
  - eexists; split; [reflexivity|]. cbn. split; [discriminate|].
    intros _. eexists; split; [reflexivity | vm_compute; discriminate].
Qed.

(** C2, as the code has it. When a store call of [submitEmojiResponse]
    fails, the select with an error other than PGRST116 or the insert
    with any error, a unique-constraint violation included, the call
    returns [success: false] with the store error's own message, or with
    "An unexpected error occurred on the server." when that message is
    empty. A failing select is followed by no insert. *)
Theorem C2_store_error_message_returned :
  forall (St : Type) (client : Backend St) (z : ZodLib) (s : St) (u : User)
         (pollId emoji : JsString),
    user (fst (auth_getUser s)) = Some u ->
    RA.emojiResponseSchema z pollId emoji = ParseOk ->
    let sel := votes_select_single pollId (id u) emoji (snd (auth_getUser s)) in
    let ins := votes_insert (emoji_row pollId (id u) emoji) (snd sel) in
    let r := run (RA.submitEmojiResponse z pollId emoji) s in
    (forall e, reply_error (fst sel) = Some e ->
               jeqb (code e) (js "PGRST116") = false ->
               outcome r =
               Return {| RA.success := false;
                         RA.error := Some (or_else (message e)
                           (js "An unexpected error occurred on the server.")) |}
               /\ filter is_store_mutation (calls r) = [])
    /\ (forall e, reply_data (fst sel) = None ->
                  (forall e', reply_error (fst sel) = Some e' ->
                              jeqb (code e') (js "PGRST116") = true) ->
                  fst ins = Some e ->
                  outcome r =
                  Return {| RA.success := false;
                            RA.error := Some (or_else (message e)
                              (js "An unexpected error occurred on the server.")) |}
                  /\ final r = snd ins).
Proof.
  intros St client z s u pollId emoji Hu Hp.
  exact (@store_failure_reported _ _ z s u pollId emoji Hu Hp).
Qed.

Lemma C2_witness :
  user (fst (auth_getUser racing_store)) = Some u1
  /\ RA.emojiResponseSchema zod_default poll1 thumbs_up = ParseOk
  /\ outcome (run (RA.submitEmojiResponse zod_default poll1 thumbs_up) racing_store)
     = Return {| RA.success := false;
                 RA.error := Some (js "duplicate key value violates unique constraint") |}.
Proof.
  split; [reflexivity|]. split; [reflexivity|].
  refine (proj1 (proj2 (@C2_store_error_message_returned Store mem_backend
                          zod_default racing_store u1 poll1 thumbs_up
                          eq_refl eq_refl)
                       unique_violation eq_refl _ eq_refl)).
  intros e' He'. vm_compute in He'. inversion He'. reflexivity.
Defined.

(** C2, as specified, fails: the pre-check finds no row, the
    insert is refused by the unique index, and the caller receives the
    store's message word for word instead of the duplicate message. *)
Lemma C2_counterexample :
  let r := run (RA.submitEmojiResponse zod_default poll1 thumbs_up) racing_store in
  fst (votes_insert (emoji_row poll1 (id u1) thumbs_up) racing_store)
  = Some unique_violation
  /\ code unique_violation = js "23505"
  /\ outcome r = Return {| RA.success := false;
                           RA.error := Some (message unique_violation) |}
  /\ outcome r <> Return {| RA.success := false;
                            RA.error := Some (js "You have already responded with this emoji.") |}.
Proof.
  split; [reflexivity|]. split; [reflexivity|].
  split; [reflexivity|]. vm_compute. discriminate.
Qed.

(* ===================================================================== *)
(** ** The actions on the executable store *)
(* ===================================================================== *)

Ltac unfold_store :=
  cbn [auth_getUser votes_select_single votes_insert polls_insert_single
       poll_options_insert polls_delete_eq_id mem_backend];
  unfold mem_auth_getUser, mem_votes_select_single, mem_votes_insert,
    mem_polls_insert_single, mem_poll_options_insert, mem_polls_delete_eq_id.

Lemma filter_length_1 {A} (f : A -> bool) (l : list A) :
  List.length (filter f l) = 1 -> exists r, filter f l = [r].
Proof.
  destruct (filter f l) as [|r [|r' l']]; simpl; try discriminate; eauto.
Qed.

Lemma matches_own_triple (p u c : JsString) :
  matches_triple p u c (emoji_row p u c) = true.
Proof.
  unfold matches_triple, emoji_row; cbn. now rewrite !jeqb_refl.
Qed.

(** A row that collides with a new emoji reaction has its triple. *)
Lemma collides_matches (p u c : JsString) (old : VoteRow) :
  collides (emoji_row p u c) old = true -> matches_triple p u c old = true.
Proof.
  unfold collides, matches_triple.
  replace (is_emoji (emoji_row p u c)) with true
    by (unfold is_emoji, emoji_row; cbn; now rewrite jeqb_refl).
  cbn [emoji_row vote_poll_id vote_user_id vote_content].
  intros H. repeat (apply andb_true_iff in H as [H ?]).
  repeat (apply andb_true_iff; split); assumption.
Qed.

Lemma no_triple_no_collision (p u c : JsString) (s : Store) :
  triple_count p u c s = 0 ->
  existsb (collides (emoji_row p u c)) (votes s) = false.
Proof.
  unfold triple_count. intros H0.
  destruct (existsb _ _) eqn:He; [|reflexivity].
  apply existsb_exists in He as (old & Hin & Hc).
  apply collides_matches in Hc.
  assert (Hf : In old (filter (matches_triple p u c) (votes s)))
    by (apply filter_In; auto).
  destruct (filter _ _); [contradiction | discriminate].
Qed.

Lemma triple_count_with_votes (p u c : JsString) (s : Store) (row : VoteRow) :
  triple_count p u c (with_votes s (votes s ++ [row])) =
  triple_count p u c s + (if matches_triple p u c row then 1 else 0).
Proof.
  unfold triple_count, with_votes; cbn [votes].
  rewrite filter_app, length_app. cbn [filter].
  now destruct (matches_triple p u c row).
Qed.

Lemma parse_ok (z : ZodLib) (pollId emoji : JsString) :
  uuid z pollId = true -> RA.emoji_refinement emoji = true ->
  RA.emojiResponseSchema z pollId emoji = ParseOk.
Proof.
  intros Hu He. unfold RA.emojiResponseSchema, string_uuid, string_refine.
  now rewrite Hu, He.
Qed.

(** A stored triple is answered as a duplicate and nothing is written. *)
Lemma submit_existing (z : ZodLib) (s : Store) (u : User) (pollId emoji : JsString) :
  votes_select_fault (faults s) = None -> auth_fault (faults s) = None ->
  session s = Some u ->
  RA.emojiResponseSchema z pollId emoji = ParseOk ->
  triple_count pollId (id u) emoji s = 1 ->
  let r := run (RA.submitEmojiResponse z pollId emoji) s in
  outcome r = Return {| RA.success := false;
                        RA.error := Some (js "You have already responded with this emoji.") |}
  /\ calls r = [AuthGetUser; VotesSelectSingle pollId (id u) emoji]
  /\ final r = s.
Proof.
  intros Hsf Haf Hs Hp Hc.
  apply filter_length_1 in Hc as (row & Hrow).
  unfold_action. unfold_store. rewrite Haf. cbn [fst snd user]. rewrite Hs, Hp.
  unfold_action. unfold_store. rewrite Hsf, Hrow. cbn. auto.
Qed.

(** A triple that is not stored is written once. *)
Lemma submit_fresh (z : ZodLib) (s : Store) (u : User) (pollId emoji : JsString) :
  healthy s -> session s = Some u ->
  RA.emojiResponseSchema z pollId emoji = ParseOk ->
  triple_count pollId (id u) emoji s = 0 ->
  let r := run (RA.submitEmojiResponse z pollId emoji) s in
  let row := emoji_row pollId (id u) emoji in
  outcome r = Return {| RA.success := true; RA.error := None |}
  /\ calls r = [AuthGetUser; VotesSelectSingle pollId (id u) emoji;
                VotesInsert row; RevalidatePath (js "/polls/" ++ pollId)]
  /\ final r = with_votes s (votes s ++ [row]).
Proof.
  intros Hh Hs Hp Hc.
  pose proof (no_triple_no_collision _ _ _ _ Hc) as Hnc.
  unfold triple_count in Hc. apply length_zero_iff_nil in Hc.
  unfold healthy in Hh. unfold emoji_row in *.
  unfold_action. unfold_store. rewrite Hh. cbn [auth_fault no_faults fst snd user].
  rewrite Hs, Hp.
  unfold_action. unfold_store. rewrite Hh, Hc.
  cbn [votes_select_fault no_faults fst snd reply_error reply_data code PGRST116].
  rewrite jeqb_refl. unfold_action. unfold_store. rewrite Hh.
  cbn [votes_insert_fault no_faults]. rewrite Hnc. cbn. auto.
Qed.

(* ===================================================================== *)
(** ** submitVote *)
(* ===================================================================== *)

(** The whole of [submitVote], on any backend. *)
Lemma submitVote_run (St : Type) (client : Backend St) (s : St)
      (pollId optionId : JsString) :
  let row := ballot_row pollId (option_map id (user (fst (auth_getUser s))))
                        optionId in
  let ins := votes_insert row (snd (auth_getUser s)) in
  run (PA.submitVote pollId optionId) s =
  (Return {| PA.error := option_map message (fst ins) |},
   {| backend := snd ins; trace := [AuthGetUser; VotesInsert row] |}).
Proof.
  unfold_action. unfold ballot_row.
  destruct (fst (votes_insert _ _)); reflexivity.
Qed.

Lemma ballot_row_not_emoji (p : JsString) (u : option JsString) (o : JsString) :
  is_emoji (ballot_row p u o) = false.
Proof. reflexivity. Qed.

Lemma ballot_count_with_votes (p u : JsString) (s : Store) (row : VoteRow) :
  ballot_count p u (with_votes s (votes s ++ [row])) =
  ballot_count p u s + (if is_ballot_of p u row then 1 else 0).
Proof.
  unfold ballot_count, with_votes; cbn [votes].
  rewrite filter_app, length_app. cbn [filter].
  now destruct (is_ballot_of p u row).
Qed.

(** A stored ballot of the pair makes the unique index refuse a new one. *)
Lemma ballot_collision (p u o : JsString) (s : Store) :
  0 < ballot_count p u s ->
  existsb (collides (ballot_row p (Some u) o)) (votes s) = true.
Proof.
  unfold ballot_count. intros Hpos.
  destruct (filter (is_ballot_of p u) (votes s)) as [|old l] eqn:Hf;
    [simpl in Hpos; lia|].
  assert (Hin : In old (filter (is_ballot_of p u) (votes s)))
    by (rewrite Hf; now left).
  apply filter_In in Hin as [Hin Hb].
  apply existsb_exists. exists old. split; [assumption|].
  unfold collides. rewrite ballot_row_not_emoji.
  unfold is_ballot_of in Hb. cbn [ballot_row vote_poll_id vote_user_id].
  exact Hb.
Qed.

(** An accepted ballot is the first of its pair. *)
Lemma accepted_ballot_is_first (p u : JsString) (row : VoteRow) (s : Store) :
  is_emoji row = false ->
  existsb (collides row) (votes s) = false ->
  is_ballot_of p u row = true ->
  ballot_count p u s = 0.
Proof.
  intros Hne Hnc Hb. unfold ballot_count.
  destruct (filter (is_ballot_of p u) (votes s)) as [|old l] eqn:Hf;
    [reflexivity|].
  assert (Hin : In old (filter (is_ballot_of p u) (votes s)))
    by (rewrite Hf; now left).
  apply filter_In in Hin as [Hin Hold].
  assert (Hcol : collides row old = true).
  { unfold collides. rewrite Hne.
    unfold is_ballot_of in Hb, Hold.
    apply andb_true_iff in Hb as [Hb Hbu]. apply andb_true_iff in Hb as [_ Hbp].
    apply andb_true_iff in Hold as [Ho Hou]. apply andb_true_iff in Ho as [Hoe Hop].
    apply jeqb_eq in Hbp, Hop. apply col_eq_true in Hbu, Hou.
    rewrite Hoe, Hbp, Hop, Hbu, Hou. cbn. now rewrite !jeqb_refl. }
  assert (Hex : existsb (collides row) (votes s) = true)
    by (apply existsb_exists; eauto).
  congruence.
Qed.

Lemma emoji_is_no_ballot (p u : JsString) (row : VoteRow) :
  is_emoji row = true -> is_ballot_of p u row = false.
Proof. intros H. unfold is_ballot_of. now rewrite H. Qed.

(** The store keeps ballot votes unique per (poll, user) whatever row it
    is asked to insert. *)
Lemma votes_insert_keeps_ballot_unique (row : VoteRow) (s : Store) :
  ballot_unique s -> ballot_unique (snd (mem_votes_insert row s)).
Proof.
  intros Hinv. unfold mem_votes_insert.
  destruct (votes_insert_fault (faults s)); [exact Hinv|].
  destruct (existsb (collides row) (votes s)) eqn:Hc; [exact Hinv|].
  cbn [snd]. intros p u. rewrite ballot_count_with_votes.
  destruct (is_ballot_of p u row) eqn:Hb.
  - destruct (is_emoji row) eqn:Hne.
    + rewrite (emoji_is_no_ballot p u row Hne) in Hb. discriminate.
    + rewrite (accepted_ballot_is_first p u row s Hne Hc Hb). simpl. lia.
  - specialize (Hinv p u). lia.
Qed.

(** And emoji reactions unique per (poll, user, content). *)
Lemma votes_insert_keeps_emoji_unique (row : VoteRow) (s : Store) :
  emoji_unique s -> emoji_unique (snd (mem_votes_insert row s)).
Proof.
  intros Hinv. unfold mem_votes_insert.
  destruct (votes_insert_fault (faults s)); [exact Hinv|].
  destruct (existsb (collides row) (votes s)) eqn:Hc; [exact Hinv|].
  cbn [snd]. intros p u c. unfold with_votes; cbn [votes].
  rewrite filter_app, length_app. cbn [filter].
  destruct (is_emoji row && matches_triple p u c row) eqn:Hrow;
    [|specialize (Hinv p u c); simpl; lia].
  apply andb_true_iff in Hrow as [He Hm].
  destruct (filter _ (votes s)) as [|old l] eqn:Hf; [simpl; lia|].
  exfalso.
  assert (Hin : In old (filter (fun r => is_emoji r && matches_triple p u c r)
                               (votes s)))
    by (rewrite Hf; now left).
  apply filter_In in Hin as [Hin Hold].
  apply andb_true_iff in Hold as [Hoe Hom].
  assert (Hcol : collides row old = true).
  { unfold collides. rewrite He, Hoe.
    unfold matches_triple in Hm, Hom.
    apply andb_true_iff in Hm as [Hm Hmc]. apply andb_true_iff in Hm as [Hmp Hmu].
    apply andb_true_iff in Hom as [Hom Hoc]. apply andb_true_iff in Hom as [Hop Hou].
    apply jeqb_eq in Hmp, Hop. apply col_eq_true in Hmu, Hmc, Hou, Hoc.
    rewrite Hmp, Hop, Hmu, Hmc, Hou, Hoc. cbn. now rewrite !jeqb_refl. }
  assert (Hex : existsb (collides row) (votes s) = true)
    by (apply existsb_exists; eauto).
  congruence.
Qed.

Lemma filter_filter_length {A} (f g : A -> bool) (l : list A) :
  List.length (filter f (filter g l)) <= List.length (filter f l).
Proof.
  induction l as [|x l IH]; simpl; [lia|].
  destruct (g x); simpl; destruct (f x); simpl; lia.
Qed.

(** Deleting a poll removes rows only, so both invariants survive it. *)
Lemma polls_delete_keeps_unique (pollId : JsString) (s : Store) :
  emoji_unique s /\ ballot_unique s ->
  emoji_unique (snd (mem_polls_delete_eq_id pollId s))
  /\ ballot_unique (snd (mem_polls_delete_eq_id pollId s)).
Proof.
  intros [He Hb]. unfold mem_polls_delete_eq_id.
  destruct (polls_delete_fault (faults s)); [auto|].
  cbn [snd]. split.
  - intros p u c. cbn [votes].
    eapply Nat.le_trans; [apply filter_filter_length | apply He].
  - intros p u. unfold ballot_count. cbn [votes].
    eapply Nat.le_trans; [apply filter_filter_length | apply Hb].
Qed.

Lemma empty_store_unique (who : option User) :
  emoji_unique (empty_store who) /\ ballot_unique (empty_store who).
Proof. split; intros p u; [intros c|]; cbn; lia. Qed.

(** C5, as the code has it. [submitVote] asks the store for nothing
    before the insert: after the session lookup its one store call is the
    insert of the ballot row. The uniqueness of ballot votes per (poll,
    user) is kept by the store: the invariant survives every call, and when
    a ballot of the same poll and signed-in user is stored the insert is
    refused, the call returns the store's error message (the unique
    violation's when nothing else fails) and the store is unchanged. *)
Theorem C5_ballot_uniqueness_by_constraint :
  forall (s : Store) (pollId optionId : JsString),
    let r := run (PA.submitVote pollId optionId) s in
    let row := ballot_row pollId (option_map id (user (fst (auth_getUser s))))
                          optionId in
    calls r = [AuthGetUser; VotesInsert row]
    /\ (ballot_unique s -> ballot_unique (final r))
    /\ (forall u, user (fst (auth_getUser s)) = Some u ->
                  0 < ballot_count pollId (id u) s ->
                  final r = s
                  /\ (exists m, outcome r = Return {| PA.error := Some m |})
                  /\ (votes_insert_fault (faults s) = None ->
                      outcome r =
                      Return {| PA.error := Some (message unique_violation) |})).
Proof.
  intros s pollId optionId r row.
  assert (Hauth : snd (mem_auth_getUser s) = s)
    by (unfold mem_auth_getUser; now destruct (auth_fault (faults s))).
  subst r. rewrite submitVote_run. fold row. unfold outcome, calls, final.
  cbn [fst snd backend trace auth_getUser votes_insert mem_backend].
  rewrite Hauth.
  split; [reflexivity|]. split.
  - intros Hinv. now apply votes_insert_keeps_ballot_unique.
  - intros u Hu Hpos.
    assert (Hrow : row = ballot_row pollId (Some (id u)) optionId).
    { unfold row. cbn [auth_getUser mem_backend] in *. now rewrite Hu. }
    pose proof (ballot_collision pollId (id u) optionId s Hpos) as Hcol.
    rewrite <- Hrow in Hcol.
    unfold mem_votes_insert. rewrite Hcol.
    destruct (votes_insert_fault (faults s)) as [e|]; cbn.
    + repeat split; eauto. discriminate.
    + repeat split; eauto.
Qed.

Lemma C5_witness :
  user (fst (auth_getUser voted_store)) = Some u1
  /\ 0 < ballot_count poll1 (id u1) voted_store
  /\ outcome (run (PA.submitVote poll1 (js "option-b")) voted_store)
     = Return {| PA.error := Some (message unique_violation) |}
  /\ final (run (PA.submitVote poll1 (js "option-b")) voted_store) = voted_store.
Proof.
  split; [reflexivity|].
  assert (Hpos : 0 < ballot_count poll1 (id u1) voted_store)
    by (vm_compute; lia).
  split; [exact Hpos|].
  pose proof (proj2 (proj2 (C5_ballot_uniqueness_by_constraint voted_store poll1
                              (js "option-b"))) u1 eq_refl Hpos)
    as (Hf & _ & Ho).
  split; [exact (Ho eq_refl) | exact Hf].
Defined.

(** C5, as specified, fails: with a vote of the pair stored, the
    call makes no select and does ask for an insert. *)
Lemma C5_counterexample :
  let r := run (PA.submitVote poll1 (js "option-b")) voted_store in
  ballot_count poll1 (id u1) voted_store = 1
  /\ filter is_votes_select (calls r) = []
  /\ filter is_votes_insert (calls r)
     = [VotesInsert (ballot_row poll1 (Some (id u1)) (js "option-b"))].
Proof. repeat split; reflexivity. Qed.

(** C6, as the code has it. Without a session user [submitVote] does not
    refuse: after the session lookup it asks the store to insert the vote
    with a null user reference, and returns [error: null] when the store
    accepts the row and the store's error message when it does not. *)
Theorem C6_anonymous_vote_attempted :
  forall (St : Type) (client : Backend St) (s : St) (pollId optionId : JsString),
    user (fst (auth_getUser s)) = None ->
    let r := run (PA.submitVote pollId optionId) s in
    let row := ballot_row pollId None optionId in
    let ins := votes_insert row (snd (auth_getUser s)) in
    calls r = [AuthGetUser; VotesInsert row]
    /\ final r = snd ins
    /\ outcome r = Return {| PA.error := option_map message (fst ins) |}.
Proof.
  intros St client s pollId optionId Hu r row ins.
  subst r. rewrite submitVote_run. unfold outcome, calls, final.
  cbn [fst snd backend trace]. rewrite Hu. cbn [option_map].
  fold row. fold ins. auto.
Qed.

Lemma C6_witness :
  user (fst (auth_getUser (empty_store None))) = None
  /\ calls (run (PA.submitVote poll1 (js "option-a")) (empty_store None))
     = [AuthGetUser; VotesInsert (ballot_row poll1 None (js "option-a"))].
Proof.
  split; [reflexivity|].
  exact (proj1 (C6_anonymous_vote_attempted Store mem_backend (empty_store None)
                  poll1 (js "option-a") eq_refl)).
Defined.

(** C6, as specified, fails: with nobody signed in the vote is
    stored with a null user and the call reports no error. *)
Lemma C6_counterexample :
  let r := run (PA.submitVote poll1 (js "option-a")) (empty_store None) in
  user (fst (auth_getUser (empty_store None))) = None
  /\ outcome r = Return {| PA.error := None |}
  /\ votes (final r) = [ballot_row poll1 None (js "option-a")]
  /\ filter is_store_mutation (calls r)
     = [VotesInsert (ballot_row poll1 None (js "option-a"))].
Proof. repeat split; reflexivity. Qed.

(* ===================================================================== *)
(** ** createPoll and deletePoll *)
(* ===================================================================== *)

(** The rows built for the options keep the texts in order, number them
    from the start index and all name the poll. *)
Lemma optionsToInsert_spec (pollId : JsString) (options : list JsString) (i : nat) :
  map option_text (PA.optionsToInsert pollId i options) = options
  /\ map option_order (PA.optionsToInsert pollId i options)
     = seq i (List.length options)
  /\ Forall (fun o => option_poll_id o = pollId) (PA.optionsToInsert pollId i options).
Proof.
  revert i. induction options as [|o options IH]; intros i; cbn.
  - repeat split. constructor.
  - destruct (IH (S i)) as (Ht & Ho & Hp). rewrite Ht, Ho.
    repeat split. constructor; [reflexivity | assumption].
Qed.

(** C7. For a form that passes validation (a non-empty question and at
    least two non-empty options once blank ones are filtered out) and a
    signed-in user whose poll row the store accepts, [createPoll] asks for
    the poll row first and the option rows second, and for nothing else.
    The option rows it asks for are the submitted non-empty options, in
    order, numbered from 0 and all naming the new poll. When the option
    insert fails, the call returns "Failed to create poll options: ..."
    and the store keeps the new poll row without options: no delete is
    requested. When it succeeds both are stored and the call returns
    [error: null]. *)
Theorem C7_createPoll_poll_then_options :
  forall (s : Store) (formData : PA.FormData) (question : JsString) (u : User),
    PA.formData_get (js "question") formData = Some question ->
    question <> [] ->
    2 <= List.length (filter truthy (PA.formData_getAll (js "options") formData)) ->
    auth_fault (faults s) = None ->
    session s = Some u ->
    polls_insert_fault (faults s) = None ->
    let r := run (PA.createPoll formData) s in
    let options := filter truthy (PA.formData_getAll (js "options") formData) in
    let pid := uuid_gen s (uuid_next s) in
    let poll := {| poll_id := pid; poll_title := question;
                   poll_created_by := Some (id u) |} in
    exists rows,
      filter is_store_call (calls r)
      = [PollsInsert {| title := question; created_by := id u |};
         PollOptionsInsert rows]
      /\ map option_text rows = options
      /\ map option_order rows = seq 0 (List.length options)
      /\ Forall (fun o => option_poll_id o = pid) rows
      /\ 2 <= List.length rows
      /\ polls (final r) = polls s ++ [poll]
      /\ (forall e, poll_options_insert_fault (faults s) = Some e ->
            outcome r = Return {| PA.error :=
                                    Some (js "Failed to create poll options: "
                                          ++ message e) |}
            /\ poll_options (final r) = poll_options s
            /\ In poll (polls (final r)))
      /\ (poll_options_insert_fault (faults s) = None ->
            outcome r = Return {| PA.error := None |}
            /\ poll_options (final r) = poll_options s ++ rows).
Proof.
  intros s formData question u Hq Hne Hlen Haf Hs Hpf r options pid poll.
  exists (PA.optionsToInsert pid 0 options).
  destruct (optionsToInsert_spec pid options 0) as (Htext & Horder & Hpoll).
  assert (Hrows : 2 <= List.length (PA.optionsToInsert pid 0 options)).
  { rewrite <- (length_map option_text), Htext. exact Hlen. }
  set (rows := PA.optionsToInsert pid 0 options) in *.
  subst r. unfold_action. rewrite Hq.
  assert (Ht : truthy question = true) by (destruct question; [contradiction | reflexivity]).
  rewrite Ht. fold options.
  assert (Hl : Nat.ltb (List.length options) 2 = false)
    by (apply Nat.ltb_ge; exact Hlen).
  rewrite Hl. cbn [negb orb]. unfold_action. unfold_store.
  rewrite Haf. cbn [fst snd auth_error user]. rewrite Hs.
  unfold_action. unfold_store. rewrite Hpf.
  cbn [fst snd reply_error reply_data]. fold pid. fold rows.
  unfold_action. unfold_store.
  cbn [faults poll_options_insert_fault polls poll_options title created_by].
  destruct (poll_options_insert_fault (faults s)) as [e|] eqn:Hof;
    cbn [fst snd backend trace polls poll_options filter is_store_call app].
  - split; [reflexivity|]. do 4 (split; [assumption|]).
    split; [reflexivity|]. split.
    + intros e' He'. inversion He'; subst e'.
      split; [reflexivity|]. split; [reflexivity|].
      apply in_or_app. right. now left.
    + discriminate.
  - split; [reflexivity|]. do 4 (split; [assumption|]).
    split; [reflexivity|]. split.
    + discriminate.
    + intros _. split; reflexivity.
Qed.

(** The sample form, whose middle option field is blank. On a store
    that refuses option rows the poll row of "Tabs or spaces?" stays
    behind without options, after the rows "Tabs" (0) and "Spaces" (1)
    were asked for; on a store that accepts them these two rows are
    stored. *)
Lemma C7_witness :
  PA.formData_get (js "question") sample_form = Some (js "Tabs or spaces?")
  /\ js "Tabs or spaces?" <> []
  /\ 2 <= List.length (filter truthy (PA.formData_getAll (js "options") sample_form))
  /\ outcome (run (PA.createPoll sample_form) half_failing_store)
     = Return {| PA.error :=
                   Some (js "Failed to create poll options: "
                         ++ message options_refused) |}
  /\ filter is_store_call (calls (run (PA.createPoll sample_form) half_failing_store))
     = [PollsInsert {| title := js "Tabs or spaces?"; created_by := id u1 |};
        PollOptionsInsert
          [ {| option_poll_id := poll1; option_text := js "Tabs"; option_order := 0 |};
            {| option_poll_id := poll1; option_text := js "Spaces"; option_order := 1 |} ]]
  /\ polls (final (run (PA.createPoll sample_form) half_failing_store))
     = [poll_of_u1]
  /\ poll_options (final (run (PA.createPoll sample_form) half_failing_store)) = []
  /\ poll_options (final (run (PA.createPoll sample_form) (empty_store (Some u1))))
     = [ {| option_poll_id := js "poll-"; option_text := js "Tabs"; option_order := 0 |};
         {| option_poll_id := js "poll-"; option_text := js "Spaces"; option_order := 1 |} ].
Proof.
  assert (Hne : js "Tabs or spaces?" <> []) by (vm_compute; discriminate).
  assert (Hlen : 2 <= List.length
                        (filter truthy (PA.formData_getAll (js "options") sample_form)))
    by (vm_compute; lia).
  split; [reflexivity|]. split; [exact Hne|]. split; [exact Hlen|].
  destruct (C7_createPoll_poll_then_options half_failing_store sample_form
              (js "Tabs or spaces?") u1 eq_refl Hne Hlen eq_refl eq_refl eq_refl)
    as (rows & _ & _ & _ & _ & _ & Hpolls & Hfail & _).
  destruct (Hfail options_refused eq_refl) as (Ho & Hopts & _).
  destruct (C7_createPoll_poll_then_options (empty_store (Some u1)) sample_form
              (js "Tabs or spaces?") u1 eq_refl Hne Hlen eq_refl eq_refl eq_refl)
    as (rows' & _ & _ & _ & _ & _ & _ & _ & Hok).
  destruct (Hok eq_refl) as (_ & Hstored).
  split; [exact Ho|]. split; [reflexivity|]. split; [exact Hpolls|].
  split; [exact Hopts|]. reflexivity.
Defined.

Lemma may_delete_true (s : Store) (p : PollRow) :
  may_delete s p = true <-> requester_is_creator s p.
Proof.
  unfold may_delete, requester_is_creator.
  destruct (session s) as [u|], (poll_created_by p) as [owner|]; split;
    try discriminate; try (intros (u' & H1 & H2); discriminate).
  - intros H. apply jeqb_eq in H. exists u. now subst.
  - intros (u' & H1 & H2). inversion H1; inversion H2; subst. apply jeqb_refl.
Qed.

Lemma filter_keeps_all {A} (f : A -> bool) (l : list A) :
  (forall x, In x l -> f x = true) -> filter f l = l.
Proof.
  induction l as [|x l IH]; intros H; simpl; [reflexivity|].
  rewrite (H x (or_introl eq_refl)). f_equal. apply IH.
  intros y Hy. apply H. now right.
Qed.

(** Nothing cascades when no poll is deleted. *)
Lemma no_deletion_no_cascade (s : Store) (pollId fk : JsString) :
  (forall p, In p (polls s) -> deleted s pollId p = false) ->
  cascades s pollId fk = false.
Proof.
  intros H. unfold cascades.
  destruct (existsb _ _) eqn:He; [|reflexivity].
  apply existsb_exists in He as (p & Hin & Hp).
  rewrite (H p Hin) in Hp. discriminate.
Qed.

(** C8. [deletePoll] removes a poll row only when its identifier is the
    requested one and the requester of the call is its creator, which is
    the store's delete policy; when the requester is the creator of no
    poll with that identifier, the polls, options and votes of the store
    are all left as they were; and when the creator asks and the call
    goes through, the poll is gone together with every option and vote
    that refers to it. *)
Theorem C8_deletePoll_creator_only :
  forall (s : Store) (pollId : JsString),
    let r := run (PA.deletePoll pollId) s in
    (forall p, In p (polls s) -> ~ In p (polls (final r)) ->
               poll_id p = pollId /\ requester_is_creator s p)
    /\ ((forall p, In p (polls s) -> poll_id p = pollId ->
                   ~ requester_is_creator s p) ->
        polls (final r) = polls s
        /\ poll_options (final r) = poll_options s
        /\ votes (final r) = votes s)
    /\ (polls_delete_fault (faults s) = None ->
        outcome r = Return {| PA.error := None |}
        /\ forall p, In p (polls s) -> poll_id p = pollId ->
                     requester_is_creator s p ->
                     ~ In p (polls (final r))
                     /\ (forall o, In o (poll_options (final r)) ->
                                   option_poll_id o <> pollId)
                     /\ (forall v, In v (votes (final r)) ->
                                   vote_poll_id v <> pollId)).
Proof.
  intros s pollId r. subst r. unfold_action. unfold_store.
  destruct (polls_delete_fault (faults s)) as [e|];
    cbn [fst snd backend trace polls poll_options votes].
  - split; [intros p Hin Hout; contradiction|].
    split; [auto | discriminate].
  - split; [|split].
    + intros p Hin Hout.
      destruct (deleted s pollId p) eqn:Hd.
      * unfold deleted in Hd. apply andb_true_iff in Hd as [Hid Hmay].
        split; [now apply jeqb_eq | now apply may_delete_true].
      * exfalso. apply Hout. apply filter_In. now rewrite Hd.
    + intros Hnot.
      assert (Hnone : forall p, In p (polls s) -> deleted s pollId p = false).
      { intros p Hin. unfold deleted.
        destruct (jeqb (poll_id p) pollId) eqn:Hid; [|reflexivity].
        apply jeqb_eq in Hid. cbn [andb].
        destruct (may_delete s p) eqn:Hm; [|reflexivity].
        exfalso. apply (Hnot p Hin Hid). now apply may_delete_true. }
      repeat split; apply filter_keeps_all; intros x Hx.
      * now rewrite (Hnone x Hx).
      * now rewrite no_deletion_no_cascade.
      * now rewrite no_deletion_no_cascade.
    + intros _. split; [reflexivity|].
      intros p Hin Hid Hown.
      assert (Hd : deleted s pollId p = true).
      { unfold deleted. apply andb_true_iff. split.
        - now apply jeqb_eq.
        - now apply may_delete_true. }
      assert (Hcas : cascades s pollId pollId = true).
      { unfold cascades. apply existsb_exists. exists p. split; [assumption|].
        rewrite Hd. cbn [andb]. now apply jeqb_eq. }
      split; [|split].
      * intros Hstill. apply filter_In in Hstill as [_ Hk].
        rewrite Hd in Hk. discriminate.
      * intros o Ho Heq. apply filter_In in Ho as [_ Hk].
        rewrite Heq, Hcas in Hk. discriminate.
      * intros v Hv Heq. apply filter_In in Hv as [_ Hk].
        rewrite Heq, Hcas in Hk. discriminate.
Qed.

(** User [u2] asks to delete the poll of [u1]: the store is untouched.
    User [u1] asks: the poll, its options and its votes are gone. *)
Lemma C8_witness :
  (forall p, In p (polls (populated_store (Some u2))) -> poll_id p = poll1 ->
             ~ requester_is_creator (populated_store (Some u2)) p)
  /\ polls (final (run (PA.deletePoll poll1) (populated_store (Some u2))))
     = [poll_of_u1]
  /\ votes (final (run (PA.deletePoll poll1) (populated_store (Some u2))))
     = votes (populated_store (Some u2))
  /\ ~ In poll_of_u1
         (polls (final (run (PA.deletePoll poll1) (populated_store (Some u1))))).
Proof.
  assert (Hother : forall p, In p (polls (populated_store (Some u2))) ->
                             poll_id p = poll1 ->
                             ~ requester_is_creator (populated_store (Some u2)) p).
  { intros p [<- | []] _ (u & Hs & Hc). inversion Hs; subst u.
    vm_compute in Hc. discriminate. }
  split; [exact Hother|].
  pose proof (C8_deletePoll_creator_only (populated_store (Some u2)) poll1)
    as (_ & Hkeep & _).
  destruct (Hkeep Hother) as (Hp & _ & Hv).
  split; [exact Hp|]. split; [exact Hv|].
  pose proof (C8_deletePoll_creator_only (populated_store (Some u1)) poll1)
    as (_ & _ & Hgo).
  destruct (Hgo eq_refl) as (_ & Hgone).
  refine (proj1 (Hgone poll_of_u1 (or_introl eq_refl) eq_refl _)).
  exists u1. split; reflexivity.
Defined.

(* ===================================================================== *)
(** ** The uniqueness invariants of the store *)
(* ===================================================================== *)

Lemma invariant_by_votes (s s' : Store) :
  votes s' = votes s -> store_invariant s -> store_invariant s'.
Proof.
  intros Hv (He & Hb & Hc).
  unfold store_invariant, emoji_unique, ballot_unique, ballot_count,
    content_typed in *.
  rewrite Hv. auto.
Qed.

Lemma votes_insert_keeps_content_typed (row : VoteRow) (s : Store) :
  (vote_content row <> None -> is_emoji row = true) ->
  content_typed s -> content_typed (snd (mem_votes_insert row s)).
Proof.
  intros Hrow Hinv. unfold mem_votes_insert.
  destruct (votes_insert_fault (faults s)); [exact Hinv|].
  destruct (existsb (collides row) (votes s)); [exact Hinv|].
  cbn [snd]. intros r Hin. unfold with_votes in Hin; cbn [votes] in Hin.
  apply in_app_or in Hin as [Hin | [<- | []]]; auto.
Qed.

Lemma votes_insert_keeps_invariant (row : VoteRow) (s : Store) :
  (vote_content row <> None -> is_emoji row = true) ->
  store_invariant s -> store_invariant (snd (mem_votes_insert row s)).
Proof.
  intros Hrow (He & Hb & Hc). repeat split.
  - now apply votes_insert_keeps_emoji_unique.
  - now apply votes_insert_keeps_ballot_unique.
  - now apply votes_insert_keeps_content_typed.
Qed.

Lemma writes_keep_invariant (s s' : Store) :
  writes s s' -> store_invariant s -> store_invariant s'.
Proof.
  intros Hw Hinv. destruct Hw.
  - apply votes_insert_keeps_invariant; [reflexivity | assumption].
  - apply votes_insert_keeps_invariant; [|assumption].
    intros H; exfalso; now apply H.
  - apply (invariant_by_votes s); [|assumption].
    unfold mem_polls_insert_single.
    now destruct (polls_insert_fault (faults s)).
  - apply (invariant_by_votes s); [|assumption].
    unfold mem_poll_options_insert.
    now destruct (poll_options_insert_fault (faults s)).
  - destruct Hinv as (He & Hb & Hc).
    destruct (polls_delete_keeps_unique pollId s (conj He Hb)) as [He' Hb'].
    repeat split; [assumption | assumption |].
    unfold mem_polls_delete_eq_id.
    destruct (polls_delete_fault (faults s)); [exact Hc|].
    cbn [snd]. intros r Hin. cbn [votes] in Hin.
    apply filter_In in Hin as [Hin _]. now apply Hc.
  - now apply (invariant_by_votes s).
Qed.

(** Every store that the actions can produce from one without votes
    holds at most one emoji reaction per (poll, user, content) and at most
    one ballot vote per (poll, user). *)
Theorem reachable_invariant (s : Store) :
  reachable s -> store_invariant s.
Proof.
  induction 1 as [s Hv | s s' _ IH Hw].
  - unfold store_invariant, emoji_unique, ballot_unique, ballot_count,
      content_typed. rewrite Hv. cbn.
    repeat split; try lia; try contradiction.
  - now apply (writes_keep_invariant s).
Qed.

(** In such a store the pre-check of [submitEmojiResponse] meets at most
    one row. *)
Lemma reachable_triple_count (s : Store) (p u c : JsString) :
  reachable s -> triple_count p u c s <= 1.
Proof.
  intros Hr. destruct (reachable_invariant s Hr) as (He & _ & Hc).
  specialize (He p u c). unfold triple_count.
  rewrite (filter_ext_in (matches_triple p u c)
             (fun r => is_emoji r && matches_triple p u c r)); [exact He|].
  intros r Hin. destruct (matches_triple p u c r) eqn:Hm;
    [|now rewrite andb_false_r].
  rewrite andb_true_r. symmetry. apply (Hc r Hin).
  unfold matches_triple in Hm. apply andb_true_iff in Hm as [_ Hm].
  apply col_eq_true in Hm. rewrite Hm. discriminate.
Qed.

(** Where [submitEmojiResponse] can leave the store. *)
Lemma submitEmojiResponse_final (z : ZodLib) (s : Store) (pollId emoji : JsString) :
  let r := run (RA.submitEmojiResponse z pollId emoji) s in
  final r = s
  \/ exists u, final r = snd (mem_votes_insert (emoji_row pollId u emoji) s).
Proof.
  assert (Hauth : snd (mem_auth_getUser s) = s)
    by (unfold mem_auth_getUser; now destruct (auth_fault (faults s))).
  assert (Hsel : forall u, snd (mem_votes_select_single pollId u emoji s) = s).
  { intros u. unfold mem_votes_select_single.
    destruct (votes_select_fault (faults s)); [reflexivity|].
    now destruct (filter _ _) as [|? [|? ?]]. }
  unfold_action. cbn [auth_getUser mem_backend]. rewrite Hauth.
  destruct (user (fst (mem_auth_getUser s))) as [u|]; [|now left].
  destruct (RA.emojiResponseSchema z pollId emoji) as [|[|i rest]];
    [|now left|now left].
  unfold_action. cbn [votes_select_single votes_insert mem_backend].
  rewrite !Hsel.
  set (sel := fst (mem_votes_select_single pollId (id u) emoji s)).
  fold (emoji_row pollId (id u) emoji).
  destruct (reply_error sel) as [e|];
    [destruct (jeqb (code e) (js "PGRST116")); cbn [negb]|];
    unfold_action; try (now left).
  all: destruct (reply_data sel); unfold_action; try (now left).
  all: right; exists (id u);
    now destruct (fst (mem_votes_insert (emoji_row pollId (id u) emoji) s)).
Qed.

(** The actions keep the store among the reachable ones. *)
Theorem actions_keep_reachable (z : ZodLib) (s : Store) :
  reachable s ->
  (forall pollId emoji,
      reachable (final (run (RA.submitEmojiResponse z pollId emoji) s)))
  /\ (forall pollId optionId,
         reachable (final (run (PA.submitVote pollId optionId) s)))
  /\ (forall pollId, reachable (final (run (PA.deletePoll pollId) s)))
  /\ (forall formData, reachable (final (run (PA.createPoll formData) s))).
Proof.
  intros Hr. split; [|split; [|split]].
  - intros pollId emoji.
    destruct (submitEmojiResponse_final z s pollId emoji) as [-> | [u ->]];
      [assumption|].
    eapply reachable_write; [eassumption | constructor].
  - intros pollId optionId. rewrite submitVote_run. unfold final.
    cbn [snd backend auth_getUser votes_insert mem_backend].
    assert (Hauth : snd (mem_auth_getUser s) = s)
      by (unfold mem_auth_getUser; now destruct (auth_fault (faults s))).
    rewrite Hauth. eapply reachable_write; [eassumption | constructor].
  - intros pollId. unfold_action. cbn [polls_delete_eq_id mem_backend].
    destruct (fst (mem_polls_delete_eq_id pollId s)); cbn [snd backend];
      (eapply reachable_write; [eassumption | constructor]).
  - intros formData.
    assert (Hauth : snd (mem_auth_getUser s) = s)
      by (unfold mem_auth_getUser; now destruct (auth_fault (faults s))).
    unfold_action.
    destruct (PA.formData_get _ _) as [question|]; [|assumption].
    destruct (negb (truthy question) || _); [assumption|].
    unfold_action. cbn [auth_getUser mem_backend]. rewrite Hauth.
    destruct (auth_error _); [assumption|].
    destruct (user _) as [u|]; [|assumption].
    unfold_action. cbn [polls_insert_single poll_options_insert mem_backend].
    set (row := {| title := question; created_by := id u |}).
    assert (Hpoll : reachable (snd (mem_polls_insert_single row s)))
      by (eapply reachable_write; [eassumption | constructor]).
    destruct (reply_error _); [assumption|].
    destruct (@reply_data JsString _) as [pid|]; [|assumption].
    unfold_action. cbn [poll_options_insert mem_backend].
    match goal with
    | |- context [mem_poll_options_insert ?rows ?s1] =>
        assert (Hopt : reachable (snd (mem_poll_options_insert rows s1)))
          by (eapply reachable_write; [eassumption | constructor]);
        destruct (fst (mem_poll_options_insert rows s1)); assumption
    end.
Qed.

(* ===================================================================== *)
(** ** Duplicate prevention *)
(* ===================================================================== *)

(** C1. On a store that answers from its tables, for a signed-in user
    and valid input: when exactly one row of the (poll, user, content)
    triple is stored, [submitEmojiResponse] returns
    "You have already responded with this emoji.", asks for no insert and
    leaves the store as it was, with the triple's row count at 1; in a
    store the actions have produced, a triple that is stored at all is
    stored exactly once; and when no row of the triple is stored, the call
    returns [success: true] and appends exactly one row, the triple's,
    after which the same call is answered as a duplicate and the count
    stays 1. *)
Theorem C1_duplicate_emoji_rejected :
  forall (z : ZodLib) (s : Store) (u : User) (pollId emoji : JsString),
    healthy s -> session s = Some u ->
    uuid z pollId = true -> RA.emoji_refinement emoji = true ->
    let submit := run (RA.submitEmojiResponse z pollId emoji) in
    let row := emoji_row pollId (id u) emoji in
    let duplicate :=
      Return {| RA.success := false;
                RA.error := Some (js "You have already responded with this emoji.") |} in
    (triple_count pollId (id u) emoji s = 1 ->
       outcome (submit s) = duplicate
       /\ filter is_store_mutation (calls (submit s)) = []
       /\ final (submit s) = s
       /\ triple_count pollId (id u) emoji (final (submit s)) = 1)
    /\ (reachable s -> 0 < triple_count pollId (id u) emoji s ->
        triple_count pollId (id u) emoji s = 1)
    /\ (triple_count pollId (id u) emoji s = 0 ->
        outcome (submit s) = Return {| RA.success := true; RA.error := None |}
        /\ filter is_store_mutation (calls (submit s)) = [VotesInsert row]
        /\ votes (final (submit s)) = votes s ++ [row]
        /\ triple_count pollId (id u) emoji (final (submit s)) = 1
        /\ outcome (submit (final (submit s))) = duplicate
        /\ final (submit (final (submit s))) = final (submit s)).
Proof.
  intros z s u pollId emoji Hh Hs Hu He submit row duplicate.
  pose proof (parse_ok z pollId emoji Hu He) as Hp.
  assert (Hsf : votes_select_fault (faults s) = None) by (now rewrite Hh).
  assert (Haf : auth_fault (faults s) = None) by (now rewrite Hh).
  split; [|split].
  - intros Hc.
    destruct (submit_existing z s u pollId emoji Hsf Haf Hs Hp Hc)
      as (Ho & Hcalls & Hf).
    unfold submit. rewrite Ho, Hcalls, Hf. auto.
  - intros Hr Hpos.
    pose proof (reachable_triple_count s pollId (id u) emoji Hr). lia.
  - intros Hc.
    destruct (submit_fresh z s u pollId emoji Hh Hs Hp Hc) as (Ho & Hcalls & Hf).
    assert (Hone : triple_count pollId (id u) emoji (final (submit s)) = 1).
    { unfold submit. rewrite Hf, triple_count_with_votes, Hc.
      now rewrite matches_own_triple. }
    unfold submit in *. rewrite Ho, Hcalls. fold row.
    rewrite Hf in *.
    destruct (submit_existing z (with_votes s (votes s ++ [row])) u pollId emoji
                Hsf Haf Hs Hp Hone) as (Ho2 & _ & Hf2).
    repeat split; auto.
Qed.

(** Poll "11111111-1111-1111-1111-111111111111", user "u1", thumbs-up, on
    an empty store: the first call succeeds, the second is a duplicate. *)
Lemma C1_witness :
  healthy (empty_store (Some u1)) /\ session (empty_store (Some u1)) = Some u1
  /\ uuid zod_default poll1 = true /\ RA.emoji_refinement thumbs_up = true
  /\ triple_count poll1 (id u1) thumbs_up (empty_store (Some u1)) = 0
  /\ let submit := run (RA.submitEmojiResponse zod_default poll1 thumbs_up) in
     outcome (submit (empty_store (Some u1)))
     = Return {| RA.success := true; RA.error := None |}
     /\ outcome (submit (final (submit (empty_store (Some u1)))))
        = Return {| RA.success := false;
                    RA.error := Some (js "You have already responded with this emoji.") |}
     /\ triple_count poll1 (id u1) thumbs_up
          (final (submit (final (submit (empty_store (Some u1)))))) = 1.
Proof.
  do 5 (split; [reflexivity|]).
  pose proof (proj2 (proj2 (@C1_duplicate_emoji_rejected zod_default
                              (empty_store (Some u1)) u1 poll1 thumbs_up
                              eq_refl eq_refl eq_refl eq_refl)) eq_refl)
    as (H1 & _ & _ & Hcount & H2 & Hsame).
  cbv zeta. split; [exact H1|]. split; [exact H2|].
  rewrite Hsame. exact Hcount.
Defined.

(* ===================================================================== *)
(** ** createPoll: validation, gates and what is stored *)
(* ===================================================================== *)

Lemma ask_eq {St A} (op : St -> A * St) (w : World St) :
  PQ.ask op w =
  (Return (fst (op (backend w))),
   {| backend := snd (op (backend w)); trace := trace w |}).
Proof. unfold PQ.ask. now destruct (op (backend w)). Qed.

Ltac unfold_more :=
  unfold run, outcome, calls, final, PQ.getUserPolls, PQ.getPollById,
    PQ.updatePoll, AA.login, AA.register, bind, ret, throw, try_catch, emit;
  repeat first [ rewrite call_eq | rewrite ask_eq
               | progress cbn [backend trace fst snd app negb] ].

(** The validation of [createPoll] and [updatePoll] as a condition on the
    form. *)
Lemma validation_passes (formData : PA.FormData) (question : JsString) :
  PA.formData_get (js "question") formData = Some question ->
  question <> [] ->
  2 <= List.length (filter truthy (PA.formData_getAll (js "options") formData)) ->
  negb (truthy question)
  || Nat.ltb (List.length (filter truthy (PA.formData_getAll (js "options") formData))) 2
  = false.
Proof.
  intros _ Hq Hl. destruct question; [contradiction|]. cbn [truthy negb orb].
  now apply Nat.ltb_ge.
Qed.

Lemma validation_fails (question : JsString) (n : nat) :
  question = [] \/ n < 2 -> negb (truthy question) || Nat.ltb n 2 = true.
Proof.
  intros [-> | Hn]; [reflexivity|].
  apply orb_true_iff. right. now apply Nat.ltb_lt.
Qed.

(** X1. [createPoll] turns a form down before it talks to anyone: when
    the question field is missing or empty, or fewer than two "options"
    fields are non-empty, the answer is the fixed validation message, the
    backend is untouched and no call is made, not even the session
    lookup. A form that passes makes the session lookup its first call. *)
Theorem createPoll_validates_before_any_call :
  forall (St : Type) (client : Backend St) (s : St) (formData : PA.FormData),
    let question := PA.formData_get (js "question") formData in
    let options := filter truthy (PA.formData_getAll (js "options") formData) in
    let r := run (PA.createPoll formData) s in
    ((question = None \/ question = Some [] \/ List.length options < 2) ->
       r = (Return {| PA.error :=
                        Some (js "Please provide a question and at least two options.") |},
            {| backend := s; trace := [] |}))
    /\ (forall q, question = Some q -> q <> [] -> 2 <= List.length options ->
          exists rest, calls r = AuthGetUser :: rest).
Proof.
  intros St client s formData question options r. subst r. split.
  - intros Hbad. unfold_action. fold question. fold options.
    destruct question as [q|]; [|reflexivity].
    rewrite validation_fails; [reflexivity|].
    destruct Hbad as [H | [H | H]]; [discriminate | inversion H; now left | now right].
  - intros q Hq Hne Hl. unfold_action. fold question. rewrite Hq.
    rewrite (validation_passes formData q Hq Hne Hl).
    unfold_action.
    destruct (auth_error _); [eexists; reflexivity|].
    destruct (user _); [|eexists; reflexivity].
    unfold_action.
    destruct (reply_error _); [eexists; reflexivity|].
    destruct (@reply_data JsString _); [|eexists; reflexivity].
    unfold_action.
    destruct (fst (poll_options_insert _ _)); eexists; reflexivity.
Qed.

Lemma createPoll_validates_witness :
  run (PA.createPoll [(js "question", js "Tabs or spaces?"); (js "options", js "Tabs");
                      (js "options", [])])
      (empty_store None)
  = (Return {| PA.error :=
                 Some (js "Please provide a question and at least two options.") |},
     {| backend := empty_store None; trace := [] |})
  /\ exists rest, calls (run (PA.createPoll sample_form) (empty_store None))
                  = AuthGetUser :: rest.
Proof.
  pose proof (createPoll_validates_before_any_call Store mem_backend
                (empty_store None)
                [(js "question", js "Tabs or spaces?"); (js "options", js "Tabs");
                 (js "options", [])]) as [Hbad _].
  pose proof (createPoll_validates_before_any_call Store mem_backend
                (empty_store None) sample_form) as [_ Hok].
  split.
  - apply Hbad. right. right. vm_compute. lia.
  - apply (Hok (js "Tabs or spaces?") eq_refl).
    + vm_compute. discriminate.
    + vm_compute. lia.
Defined.

(** X2. Past validation, [createPoll] stops at the session lookup when
    it reports an error (the provider's message is returned, even if a
    user came with it) or no user ("You must be logged in to create a
    poll."); and when the poll insert is refused it returns
    "Failed to create poll: ..." without ever asking for the option
    insert. In all three cases nothing follows the failing call. *)
Theorem createPoll_stops_at_first_failure :
  forall (St : Type) (client : Backend St) (s : St) (formData : PA.FormData)
         (question : JsString),
    PA.formData_get (js "question") formData = Some question ->
    question <> [] ->
    2 <= List.length (filter truthy (PA.formData_getAll (js "options") formData)) ->
    let auth := fst (auth_getUser s) in
    let r := run (PA.createPoll formData) s in
    (forall e, auth_error auth = Some e ->
       outcome r = Return {| PA.error := Some (auth_message e) |}
       /\ calls r = [AuthGetUser])
    /\ (auth_error auth = None -> user auth = None ->
          outcome r = Return {| PA.error :=
                                  Some (js "You must be logged in to create a poll.") |}
          /\ calls r = [AuthGetUser])
    /\ (forall u e,
          auth_error auth = None -> user auth = Some u ->
          let row := {| title := question; created_by := id u |} in
          reply_error (fst (polls_insert_single row (snd (auth_getUser s)))) = Some e ->
          outcome r = Return {| PA.error := Some (js "Failed to create poll: "
                                                  ++ message e) |}
          /\ calls r = [AuthGetUser; PollsInsert row]).
Proof.
  intros St client s formData question Hq Hne Hl auth r. subst r auth.
  unfold_action. rewrite Hq, (validation_passes formData question Hq Hne Hl).
  unfold_action. split; [|split].
  - intros e He. rewrite He. auto.
  - intros He Hu. rewrite He, Hu. auto.
  - intros u e He Hu Hins. rewrite He, Hu. unfold_action.
    rewrite Hins. auto.
Qed.

Lemma createPoll_stops_witness :
  outcome (run (PA.createPoll sample_form) (empty_store None))
  = Return {| PA.error := Some (js "You must be logged in to create a poll.") |}
  /\ calls (run (PA.createPoll sample_form) (empty_store None)) = [AuthGetUser].
Proof.
  assert (Hne : js "Tabs or spaces?" <> []) by (vm_compute; discriminate).
  assert (Hlen : 2 <= List.length
                        (filter truthy (PA.formData_getAll (js "options") sample_form)))
    by (vm_compute; lia).
  exact (proj1 (proj2 (createPoll_stops_at_first_failure Store mem_backend
                         (empty_store None) sample_form (js "Tabs or spaces?")
                         eq_refl Hne Hlen)) eq_refl eq_refl).
Defined.

(** X3. When [createPoll] goes through on the store, the stored poll is
    owned by the session user and titled with the first "question"
    field, and the option rows it adds are exactly the non-empty
    "options" fields in submission order, numbered 0, 1, 2, ... and all
    referring to the new poll; blank fields leave no gap in the
    numbering. *)
Theorem createPoll_stores_options_in_order :
  forall (s : Store) (formData : PA.FormData) (question : JsString) (u : User),
    PA.formData_get (js "question") formData = Some question ->
    question <> [] ->
    2 <= List.length (filter truthy (PA.formData_getAll (js "options") formData)) ->
    healthy s -> session s = Some u ->
    let r := run (PA.createPoll formData) s in
    let pid := uuid_gen s (uuid_next s) in
    let options := filter truthy (PA.formData_getAll (js "options") formData) in
    exists rows,
      poll_options (final r) = poll_options s ++ rows
      /\ MemStore.polls (final r)
         = MemStore.polls s ++ [ {| poll_id := pid; poll_title := question;
                                    poll_created_by := Some (id u) |} ]
      /\ map option_text rows = options
      /\ map option_order rows = seq 0 (List.length options)
      /\ Forall (fun o => option_poll_id o = pid) rows
      /\ outcome r = Return {| PA.error := None |}.
Proof.
  intros s formData question u Hq Hne Hl Hh Hs r pid options. subst r.
  exists (PA.optionsToInsert pid 0 options).
  destruct (optionsToInsert_spec pid options 0) as (Ht & Ho & Hp).
  unfold healthy in Hh.
  unfold_action. rewrite Hq, (validation_passes formData question Hq Hne Hl).
  unfold_action. unfold_store. rewrite Hh.
  cbn [auth_fault no_faults fst snd auth_error user]. rewrite Hs.
  unfold_action. unfold_store. rewrite Hh.
  cbn [polls_insert_fault no_faults fst snd reply_error reply_data].
  unfold_action. unfold_store. cbn [faults]. rewrite ?Hh.
  cbn. fold pid. fold options. auto 10.
Qed.

Lemma createPoll_stores_witness :
  map option_text
      (poll_options (final (run (PA.createPoll sample_form) (empty_store (Some u1)))))
  = [js "Tabs"; js "Spaces"]
  /\ map option_order
         (poll_options (final (run (PA.createPoll sample_form) (empty_store (Some u1)))))
     = [0; 1].
Proof.
  assert (Hne : js "Tabs or spaces?" <> []) by (vm_compute; discriminate).
  assert (Hlen : 2 <= List.length
                        (filter truthy (PA.formData_getAll (js "options") sample_form)))
    by (vm_compute; lia).
  destruct (createPoll_stores_options_in_order (empty_store (Some u1)) sample_form
              (js "Tabs or spaces?") u1 eq_refl Hne Hlen eq_refl eq_refl)
    as (rows & Hrows & _ & Ht & Ho & _).
  rewrite Hrows. cbn [empty_store poll_options app]. split; [exact Ht | exact Ho].
Defined.

(* ===================================================================== *)
(** ** deletePoll and submitVote on the store *)
(* ===================================================================== *)

(** The whole of [deletePoll], on any backend. *)
Lemma deletePoll_run (St : Type) (client : Backend St) (s : St) (pollId : JsString) :
  let del := polls_delete_eq_id pollId s in
  run (PA.deletePoll pollId) s =
  match fst del with
  | Some e => (Return {| PA.error := Some (message e) |},
               {| backend := snd del; trace := [PollsDelete pollId] |})
  | None => (Return {| PA.error := None |},
             {| backend := snd del;
                trace := [PollsDelete pollId; RevalidatePath (js "/polls")] |})
  end.
Proof. unfold_action. now destruct (fst (polls_delete_eq_id pollId s)). Qed.

Lemma deletePoll_final (s : Store) (pollId : JsString) :
  final (run (PA.deletePoll pollId) s) = snd (mem_polls_delete_eq_id pollId s).
Proof.
  rewrite deletePoll_run. cbn [polls_delete_eq_id mem_backend].
  now destruct (fst (mem_polls_delete_eq_id pollId s)).
Qed.

Lemma filter_idem {A} (f : A -> bool) (l : list A) : filter f (filter f l) = filter f l.
Proof.
  apply filter_keeps_all. intros x Hx. now apply filter_In in Hx.
Qed.

(** X4. [deletePoll] is idempotent on the store: a second call with the
    same identifier, by the same requester, leaves everything as the
    first call left it. *)
Theorem deletePoll_idempotent :
  forall (s : Store) (pollId : JsString),
    let once := final (run (PA.deletePoll pollId) s) in
    final (run (PA.deletePoll pollId) once) = once.
Proof.
  intros s pollId once. subst once. rewrite !deletePoll_final.
  unfold mem_polls_delete_eq_id.
  destruct (polls_delete_fault (faults s)) as [e|] eqn:Hf; cbn [snd faults];
    rewrite Hf; [reflexivity|].
  cbn [snd].
  set (s1 := {| session := session s;
                polls := filter (fun p => negb (deleted s pollId p)) (polls s);
                poll_options := _; votes := _; uuid_gen := _; uuid_next := _;
                faults := _ |}).
  assert (Hdel : forall p, deleted s1 pollId p = deleted s pollId p) by reflexivity.
  assert (Hnone : forall p, In p (polls s1) -> deleted s1 pollId p = false).
  { intros p Hin. cbn [s1 polls] in Hin. apply filter_In in Hin as [_ Hk].
    rewrite Hdel. now destruct (deleted s pollId p). }
  assert (Hp : filter (fun p => negb (deleted s1 pollId p)) (polls s1) = polls s1).
  { apply filter_keeps_all. intros p Hin. now rewrite (Hnone p Hin). }
  assert (Ho : filter (fun o => negb (cascades s1 pollId (option_poll_id o)))
                      (poll_options s1) = poll_options s1).
  { apply filter_keeps_all. intros o _. now rewrite no_deletion_no_cascade. }
  assert (Hv : filter (fun v => negb (cascades s1 pollId (vote_poll_id v)))
                      (votes s1) = votes s1).
  { apply filter_keeps_all. intros v _. now rewrite no_deletion_no_cascade. }
  rewrite Hp, Ho, Hv. reflexivity.
Qed.

(** A row whose key is another poll's is beyond the reach of the call. *)
Lemma cascade_own_key (s : Store) (pollId fk : JsString) :
  fk <> pollId -> cascades s pollId fk = false.
Proof.
  intros Hne. unfold cascades.
  destruct (existsb _ _) eqn:He; [|reflexivity].
  apply existsb_exists in He as (p & _ & Hp).
  apply andb_true_iff in Hp as [Hd Hk]. unfold deleted in Hd.
  apply andb_true_iff in Hd as [Hid _].
  apply jeqb_eq in Hid, Hk. congruence.
Qed.

(** X5. [deletePoll] spares the other polls: every poll with another
    identifier and every option of another poll is still stored
    afterwards, and no table holds a row that was not there before. (Which
    votes go is left to the store's cascades.) *)
Theorem deletePoll_spares_other_polls :
  forall (s : Store) (pollId : JsString),
    let s' := final (run (PA.deletePoll pollId) s) in
    (forall p, In p (polls s) -> poll_id p <> pollId -> In p (polls s'))
    /\ (forall o, In o (poll_options s) -> option_poll_id o <> pollId ->
                  In o (poll_options s'))
    /\ (forall p, In p (polls s') -> In p (polls s))
    /\ (forall o, In o (poll_options s') -> In o (poll_options s))
    /\ (forall v, In v (votes s') -> In v (votes s)).
Proof.
  intros s pollId s'. subst s'. rewrite deletePoll_final.
  unfold mem_polls_delete_eq_id.
  destruct (polls_delete_fault (faults s)); cbn [snd polls poll_options votes];
    [repeat split; auto|].
  repeat split.
  - intros p Hin Hne. apply filter_In. split; [assumption|].
    unfold deleted. destruct (jeqb (poll_id p) pollId) eqn:Hid; [|reflexivity].
    apply jeqb_eq in Hid. contradiction.
  - intros o Hin Hne. apply filter_In. split; [assumption|].
    now rewrite cascade_own_key.
  - intros p Hin. now apply filter_In in Hin.
  - intros o Hin. now apply filter_In in Hin.
  - intros v Hin. now apply filter_In in Hin.
Qed.

Lemma deletePoll_spares_witness :
  poll_id poll_of_u1 <> js "22222222-2222-2222-2222-222222222222"
  /\ In poll_of_u1
        (polls (final (run (PA.deletePoll (js "22222222-2222-2222-2222-222222222222"))
                           (populated_store (Some u1))))).
Proof.
  assert (Hne : poll_id poll_of_u1 <> js "22222222-2222-2222-2222-222222222222")
    by (vm_compute; discriminate).
  split; [exact Hne|].
  exact (proj1 (deletePoll_spares_other_polls (populated_store (Some u1))
                  (js "22222222-2222-2222-2222-222222222222"))
               poll_of_u1 (or_introl eq_refl) Hne).
Defined.

(** X6. When the store answers the delete with an error, [deletePoll]
    returns the error's message and does not signal the polls page as
    stale; the page is revalidated exactly when the store reports no
    error. *)
Theorem deletePoll_revalidates_on_success_only :
  forall (St : Type) (client : Backend St) (s : St) (pollId : JsString),
    let r := run (PA.deletePoll pollId) s in
    (forall e, fst (polls_delete_eq_id pollId s) = Some e ->
       outcome r = Return {| PA.error := Some (message e) |}
       /\ calls r = [PollsDelete pollId])
    /\ (fst (polls_delete_eq_id pollId s) = None ->
          outcome r = Return {| PA.error := None |}
          /\ calls r = [PollsDelete pollId; RevalidatePath (js "/polls")])
    /\ (In (RevalidatePath (js "/polls")) (calls r)
        <-> outcome r = Return {| PA.error := None |}).
Proof.
  intros St client s pollId r. subst r. rewrite deletePoll_run.
  destruct (fst (polls_delete_eq_id pollId s)) as [e|]; unfold outcome, calls;
    cbn [fst snd trace].
  - split; [|split; [discriminate|split]].
    + intros e' He'. inversion He'. auto.
    + intros [Hin | []]. discriminate.
    + discriminate.
  - split; [discriminate|]. split; [auto|]. split; [reflexivity|].
    intros _. right. now left.
Qed.

Lemma deletePoll_revalidates_witness :
  fst (polls_delete_eq_id poll1 (populated_store (Some u1))) = None
  /\ calls (run (PA.deletePoll poll1) (populated_store (Some u1)))
     = [PollsDelete poll1; RevalidatePath (js "/polls")].
Proof.
  split; [reflexivity|].
  exact (proj2 (proj1 (proj2 (deletePoll_revalidates_on_success_only Store mem_backend
                                (populated_store (Some u1)) poll1)) eq_refl)).
Defined.

(** X8. A signed-in user votes once per poll: on a store that answers
    from its tables, the first ballot of the pair is stored and the call
    reports no error; any later ballot of the same user on the same poll,
    for the same or another option, is refused with the unique
    violation's message and changes nothing, so the first choice
    stands. *)
Theorem submitVote_signed_in_once :
  forall (s : Store) (u : User) (pollId optionId other : JsString),
    healthy s -> session s = Some u ->
    ballot_count pollId (id u) s = 0 ->
    let first := run (PA.submitVote pollId optionId) s in
    let second := run (PA.submitVote pollId other) (final first) in
    outcome first = Return {| PA.error := None |}
    /\ votes (final first) = votes s ++ [ballot_row pollId (Some (id u)) optionId]
    /\ outcome second = Return {| PA.error := Some (message unique_violation) |}
    /\ final second = final first.
Proof.
  intros s u pollId optionId other Hh Hs Hc first second.
  unfold healthy in Hh.
  assert (Hnc : existsb (collides (ballot_row pollId (Some (id u)) optionId)) (votes s)
                = false).
  { destruct (existsb _ _) eqn:He; [|reflexivity].
    apply existsb_exists in He as (old & Hin & Hcol).
    unfold collides in Hcol. rewrite ballot_row_not_emoji in Hcol.
    cbn [ballot_row vote_poll_id vote_user_id] in Hcol.
    assert (Hf : In old (filter (is_ballot_of pollId (id u)) (votes s)))
      by (apply filter_In; split; [assumption | exact Hcol]).
    unfold ballot_count in Hc. destruct (filter _ _); [contradiction | discriminate]. }
  assert (Hfirst : first
            = (Return {| PA.error := None |},
               {| backend := with_votes s (votes s ++ [ballot_row pollId (Some (id u)) optionId]);
                  trace := [AuthGetUser;
                            VotesInsert (ballot_row pollId (Some (id u)) optionId)] |})).
  { unfold first. rewrite submitVote_run.
    cbn [auth_getUser votes_insert mem_backend].
    unfold mem_auth_getUser, mem_votes_insert. rewrite Hh.
    cbn [auth_fault votes_insert_fault no_faults fst snd user]. rewrite Hs.
    cbn [option_map]. rewrite Hnc, Hh. reflexivity. }
  set (s1 := with_votes s (votes s ++ [ballot_row pollId (Some (id u)) optionId])).
  assert (Hpos : 0 < ballot_count pollId (id u) s1).
  { unfold s1. rewrite ballot_count_with_votes, Hc.
    unfold is_ballot_of. rewrite ballot_row_not_emoji.
    cbn [ballot_row vote_poll_id vote_user_id col_eq negb andb].
    rewrite !jeqb_refl. cbn. lia. }
  pose proof (ballot_collision pollId (id u) other s1 Hpos) as Hcol.
  unfold second. rewrite Hfirst. unfold outcome, final. cbn [fst snd backend].
  fold s1. rewrite submitVote_run.
  cbn [auth_getUser votes_insert mem_backend fst snd backend].
  unfold mem_auth_getUser, mem_votes_insert.
  cbn [s1 with_votes faults session]. rewrite Hh.
  cbn [auth_fault votes_insert_fault no_faults fst snd user]. rewrite Hs.
  cbn [option_map]. fold s1. rewrite Hcol. cbn. rewrite Hh. cbn.
  repeat split; reflexivity.
Qed.

Lemma submitVote_signed_in_witness :
  healthy (empty_store (Some u1)) /\ session (empty_store (Some u1)) = Some u1
  /\ ballot_count poll1 (id u1) (empty_store (Some u1)) = 0
  /\ outcome (run (PA.submitVote poll1 (js "option-b"))
                  (final (run (PA.submitVote poll1 (js "option-a"))
                              (empty_store (Some u1)))))
     = Return {| PA.error := Some (message unique_violation) |}.
Proof.
  do 3 (split; [reflexivity|]).
  exact (proj1 (proj2 (proj2 (submitVote_signed_in_once (empty_store (Some u1)) u1
                                poll1 (js "option-a") (js "option-b")
                                eq_refl eq_refl eq_refl)))).
Defined.

(* ===================================================================== *)
(** ** The order of calls in submitEmojiResponse *)
(* ===================================================================== *)

Ltac not_in_trace :=
  let H := fresh in
  intros H; cbn in H;
  repeat (destruct H as [H | H]; [discriminate H|]); contradiction.

(** X9. On every backend a run of [submitEmojiResponse] makes its calls
    in one fixed order and stops at the first that fails: the session
    lookup; then the pre-check select for the signed-in user's own
    triple; then the insert of that user's row; then the revalidation of
    [/polls/<pollId>]. So no insert happens without a pre-check before it,
    at most one row is asked for, that row is the session user's, and the
    page is revalidated exactly when the result is [success: true]. *)
Theorem submitEmojiResponse_call_order :
  forall (St : Type) (client : Backend St) (z : ZodLib) (s : St)
         (pollId emoji : JsString),
    let r := run (RA.submitEmojiResponse z pollId emoji) s in
    let page := RevalidatePath (js "/polls/" ++ pollId) in
    (calls r = [AuthGetUser]
     \/ exists u,
         user (fst (auth_getUser s)) = Some u
         /\ let sel := VotesSelectSingle pollId (id u) emoji in
            let ins := VotesInsert (emoji_row pollId (id u) emoji) in
            calls r = [AuthGetUser; sel]
            \/ (exists t, calls r = [AuthGetUser; sel; ConsoleError t])
            \/ (exists t, calls r = [AuthGetUser; sel; ins; ConsoleError t])
            \/ calls r = [AuthGetUser; sel; ins; page])
    /\ (In page (calls r)
        <-> outcome r = Return {| RA.success := true; RA.error := None |}).
Proof.
  intros St client z s pollId emoji r page. subst r page.
  unfold_action.
  destruct (user (fst (auth_getUser s))) as [u|] eqn:Hu;
    [|split; [now left | split; [not_in_trace | discriminate]]].
  destruct (RA.emojiResponseSchema z pollId emoji) as [|[|i rest]];
    [|split; [now left | split; [not_in_trace | discriminate]]
     |split; [now left | split; [not_in_trace | discriminate]]].
  unfold_action. fold (emoji_row pollId (id u) emoji).
  destruct (reply_error _) as [e|];
    [destruct (jeqb (code e) (js "PGRST116")); cbn [negb]|]; unfold_action.
  2: { split; [right; exists u; split; [reflexivity|]; right; left; eexists; reflexivity|].
       split; [not_in_trace | discriminate]. }
  all: destruct (@reply_data VoteRow _); unfold_action.
  1,3: split; [right; exists u; split; [reflexivity|]; now left|];
       split; [not_in_trace | discriminate].
  all: destruct (fst (votes_insert _ _)); unfold_action.
  1,3: split; [right; exists u; split; [reflexivity|];
               right; right; left; eexists; reflexivity|];
       split; [not_in_trace | discriminate].
  all: split; [right; exists u; split; [reflexivity|]; right; right; right; reflexivity|];
       split; [reflexivity|]; intros _; cbn; auto.
Qed.

(** X10. Where [submitEmojiResponse] leaves the store: it is unchanged
    unless the insert of the caller's own emoji row was accepted, so a
    failed or refused call never leaves a partial write, and one call
    adds at most one row. *)
Theorem submitEmojiResponse_all_or_nothing :
  forall (z : ZodLib) (s : Store) (pollId emoji : JsString),
    let r := run (RA.submitEmojiResponse z pollId emoji) s in
    (outcome r = Return {| RA.success := true; RA.error := None |} ->
       exists u, session s = Some u
                 /\ final r = with_votes s (votes s ++ [emoji_row pollId (id u) emoji]))
    /\ (outcome r <> Return {| RA.success := true; RA.error := None |} ->
          final r = s).
Proof.
  intros z s pollId emoji r. subst r.
  assert (Hsel : forall u, snd (mem_votes_select_single pollId u emoji s) = s).
  { intros u. unfold mem_votes_select_single.
    destruct (votes_select_fault (faults s)); [reflexivity|].
    now destruct (filter _ _) as [|? [|? ?]]. }
  unfold_action. cbn [auth_getUser mem_backend]. unfold mem_auth_getUser.
  destruct (auth_fault (faults s)); cbn [fst snd user];
    [split; [discriminate | reflexivity]|].
  destruct (session s) as [u|]; [|split; [discriminate | reflexivity]].
  destruct (RA.emojiResponseSchema z pollId emoji) as [|[|i rest]];
    [|split; [discriminate | reflexivity]|split; [discriminate | reflexivity]].
  unfold_action. cbn [votes_select_single votes_insert mem_backend].
  rewrite !Hsel. fold (emoji_row pollId (id u) emoji).
  destruct (reply_error _) as [e|];
    [destruct (jeqb (code e) (js "PGRST116")); cbn [negb]|]; unfold_action;
    try (split; [discriminate | reflexivity]).
  all: destruct (@reply_data VoteRow _); unfold_action;
    try (split; [discriminate | reflexivity]).
  all: unfold mem_votes_insert;
    destruct (votes_insert_fault (faults s));
    [|destruct (existsb _ _)]; unfold_action;
    try (split; [discriminate | reflexivity]).
  all: split; [intros _; exists u; split; reflexivity | intros H; now contradiction H].
Qed.

Lemma submitEmojiResponse_all_or_nothing_witness :
  outcome (run (RA.submitEmojiResponse zod_default poll1 thumbs_up) racing_store)
  <> Return {| RA.success := true; RA.error := None |}
  /\ final (run (RA.submitEmojiResponse zod_default poll1 thumbs_up) racing_store)
     = racing_store.
Proof.
  assert (Hne : outcome (run (RA.submitEmojiResponse zod_default poll1 thumbs_up)
                             racing_store)
                <> Return {| RA.success := true; RA.error := None |})
    by (vm_compute; discriminate).
  split; [exact Hne|].
  exact (proj2 (submitEmojiResponse_all_or_nothing zod_default racing_store poll1
                  thumbs_up) Hne).
Defined.

(* ===================================================================== *)
(** ** Reading polls back *)
(* ===================================================================== *)

(** X11. [getUserPolls] never returns polls together with an error,
    on any backend: without a session user it answers with an empty list
    and "Not authenticated" and does not ask the store; when the select
    reports an error it answers with an empty list and the store's
    message; otherwise it answers with the rows of the select, or with an
    empty list when the select gave [null], and no error. So whatever it
    returns, a result with an error has an empty list. *)
Theorem getUserPolls_empty_on_failure :
  forall (St : Type) (client : Backend St) (queries : PQ.QueryClient St) (s : St),
    let r := run PQ.getUserPolls s in
    let s1 := snd (auth_getUser s) in
    (user (fst (auth_getUser s)) = None ->
       r = (Return {| PQ.polls := [];
                      PQ.polls_error := Some (js "Not authenticated") |},
            {| backend := s1; trace := [AuthGetUser] |}))
    /\ (forall u e,
          user (fst (auth_getUser s)) = Some u ->
          reply_error (fst (PQ.polls_select_by_creator (id u) s1)) = Some e ->
          outcome r = Return {| PQ.polls := []; PQ.polls_error := Some (message e) |})
    /\ (forall u,
          user (fst (auth_getUser s)) = Some u ->
          reply_error (fst (PQ.polls_select_by_creator (id u) s1)) = None ->
          outcome r
          = Return {| PQ.polls :=
                        match reply_data (fst (PQ.polls_select_by_creator (id u) s1)) with
                        | Some data => data
                        | None => []
                        end;
                      PQ.polls_error := None |})
    /\ (forall res, outcome r = Return res ->
          PQ.polls_error res <> None -> PQ.polls res = []).
Proof.
  intros St client queries s r s1. subst r s1. unfold_more.
  destruct (user (fst (auth_getUser s))) as [u|].
  - unfold_more.
    destruct (reply_error _) as [e|] eqn:He.
    + split; [discriminate|]. split; [|split].
      * intros u' e' Hu' He'. inversion Hu'; subst u'.
        rewrite He in He'. now inversion He'.
      * intros u' Hu' He'. inversion Hu'; subst u'.
        rewrite He in He'. discriminate.
      * intros res Hres _. now inversion Hres.
    + split; [discriminate|]. split; [|split].
      * intros u' e' Hu' He'. inversion Hu'; subst u'.
        rewrite He in He'. discriminate.
      * intros u' Hu' _. inversion Hu'; subst u'. reflexivity.
      * intros res Hres Herr. inversion Hres; subst res. now contradiction Herr.
  - split; [reflexivity|]. split; [discriminate|]. split; [discriminate|].
    intros res Hres _. now inversion Hres.
Qed.

(** [getUserPolls] on the store, for a signed-in user. *)
Lemma getUserPolls_mem_run (s : Store) (u : User) :
  auth_fault (faults s) = None -> session s = Some u ->
  run PQ.getUserPolls s =
  (Return {| PQ.polls :=
               rev (filter (fun p => col_eq (poll_created_by p) (id u)) (polls s));
             PQ.polls_error := None |},
   {| backend := s; trace := [AuthGetUser] |}).
Proof.
  intros Haf Hs. unfold_more.
  cbn [auth_getUser mem_backend PQ.polls_select_by_creator mem_queries].
  unfold mem_auth_getUser, PQ.mem_polls_select_by_creator. rewrite Haf.
  cbn [fst snd user]. rewrite Hs. unfold_more. reflexivity.
Qed.

(** X12. On the store [getUserPolls] returns the signed-in user's polls
    and nobody else's: a poll is in the answer exactly when it is stored
    and its creator is the session user; the answer lists them newest
    first, and reading changes nothing. *)
Theorem getUserPolls_own_polls_only :
  forall (s : Store) (u : User),
    auth_fault (faults s) = None -> session s = Some u ->
    let r := run PQ.getUserPolls s in
    let own := filter (fun p => col_eq (poll_created_by p) (id u)) (polls s) in
    outcome r = Return {| PQ.polls := rev own; PQ.polls_error := None |}
    /\ (forall p, In p (rev own) <->
                  In p (polls s) /\ poll_created_by p = Some (id u))
    /\ final r = s.
Proof.
  intros s u Haf Hs r own. subst r. rewrite (getUserPolls_mem_run s u Haf Hs).
  fold own. split; [reflexivity|]. split; [|reflexivity].
  intros p. rewrite <- in_rev. unfold own. rewrite filter_In, col_eq_true.
  reflexivity.
Qed.

Lemma getUserPolls_own_witness :
  auth_fault (faults (populated_store (Some u2))) = None
  /\ session (populated_store (Some u2)) = Some u2
  /\ outcome (run PQ.getUserPolls (populated_store (Some u2)))
     = Return {| PQ.polls := []; PQ.polls_error := None |}
  /\ outcome (run PQ.getUserPolls (populated_store (Some u1)))
     = Return {| PQ.polls := [poll_of_u1]; PQ.polls_error := None |}.
Proof.
  split; [reflexivity|]. split; [reflexivity|].
  split.
  - exact (proj1 (getUserPolls_own_polls_only (populated_store (Some u2)) u2
                    eq_refl eq_refl)).
  - exact (proj1 (getUserPolls_own_polls_only (populated_store (Some u1)) u1
                    eq_refl eq_refl)).
Defined.

(** The store a successful [createPoll] leaves. *)
Lemma createPoll_success_final (s : Store) (formData : PA.FormData)
      (question : JsString) (u : User) :
  PA.formData_get (js "question") formData = Some question ->
  question <> [] ->
  2 <= List.length (filter truthy (PA.formData_getAll (js "options") formData)) ->
  healthy s -> session s = Some u ->
  let pid := uuid_gen s (uuid_next s) in
  final (run (PA.createPoll formData) s) =
  {| session := session s;
     polls := polls s ++ [ {| poll_id := pid; poll_title := question;
                              poll_created_by := Some (id u) |} ];
     poll_options :=
       poll_options s
       ++ PA.optionsToInsert pid 0
            (filter truthy (PA.formData_getAll (js "options") formData));
     votes := votes s; uuid_gen := uuid_gen s; uuid_next := S (uuid_next s);
     faults := faults s |}.
Proof.
  intros Hq Hne Hl Hh Hs pid. subst pid. unfold healthy in Hh.
  destruct s as [ses pol opt vot gen nxt flt]. cbn in Hh, Hs. subst ses flt.
  unfold_action. rewrite Hq, (validation_passes formData question Hq Hne Hl).
  reflexivity.
Qed.

(** X13. What [createPoll] stores can be read back: after a successful
    call on the store, [getUserPolls] by the same user lists the new poll
    first, followed by what it listed before; and when the identifier the
    store handed out is not already a poll's, [getPollById] with it
    returns the new poll. *)
Theorem createPoll_then_read :
  forall (s : Store) (formData : PA.FormData) (question : JsString) (u : User),
    PA.formData_get (js "question") formData = Some question ->
    question <> [] ->
    2 <= List.length (filter truthy (PA.formData_getAll (js "options") formData)) ->
    healthy s -> session s = Some u ->
    let pid := uuid_gen s (uuid_next s) in
    let created := {| poll_id := pid; poll_title := question;
                      poll_created_by := Some (id u) |} in
    let s' := final (run (PA.createPoll formData) s) in
    (forall before,
        outcome (run PQ.getUserPolls s)
        = Return {| PQ.polls := before; PQ.polls_error := None |} ->
        outcome (run PQ.getUserPolls s')
        = Return {| PQ.polls := created :: before; PQ.polls_error := None |})
    /\ ((forall p, In p (polls s) -> poll_id p <> pid) ->
        outcome (run (PQ.getPollById pid) s')
        = Return {| PQ.poll := Some created; PQ.poll_error := None |}).
Proof.
  intros s formData question u Hq Hne Hl Hh Hs pid created s'.
  subst s'. rewrite (createPoll_success_final s formData question u Hq Hne Hl Hh Hs).
  fold pid. fold created.
  assert (Haf : auth_fault (faults s) = None) by (now rewrite Hh).
  split.
  - intros before Hbefore.
    rewrite (getUserPolls_mem_run s u Haf Hs) in Hbefore.
    inversion Hbefore as [Hb]. clear Hbefore.
    match goal with
    | |- context [run PQ.getUserPolls ?s1] =>
        rewrite (getUserPolls_mem_run s1 u Haf Hs)
    end.
    unfold outcome. cbn [fst polls].
    rewrite filter_app, rev_app_distr. cbn [filter created poll_created_by col_eq].
    rewrite jeqb_refl. reflexivity.
  - intros Hfresh. unfold_more.
    cbn [PQ.polls_select_single_by_id mem_queries].
    unfold PQ.mem_polls_select_single_by_id. cbn [polls].
    rewrite filter_app.
    assert (Hnone : filter (fun p => jeqb (poll_id p) pid) (polls s) = []).
    { destruct (filter _ (polls s)) as [|p l] eqn:Hf; [reflexivity|].
      assert (Hin : In p (filter (fun p => jeqb (poll_id p) pid) (polls s)))
        by (rewrite Hf; now left).
      apply filter_In in Hin as [Hin Hid]. apply jeqb_eq in Hid.
      now destruct (Hfresh p Hin). }
    rewrite Hnone. cbn [filter created poll_id app]. rewrite jeqb_refl.
    reflexivity.
Qed.

Lemma createPoll_then_read_witness :
  outcome (run (PQ.getPollById (js "poll-"))
               (final (run (PA.createPoll sample_form) (empty_store (Some u1)))))
  = Return {| PQ.poll := Some {| poll_id := js "poll-";
                                 poll_title := js "Tabs or spaces?";
                                 poll_created_by := Some (id u1) |};
              PQ.poll_error := None |}.
Proof.
  assert (Hne : js "Tabs or spaces?" <> []) by (vm_compute; discriminate).
  assert (Hlen : 2 <= List.length
                        (filter truthy (PA.formData_getAll (js "options") sample_form)))
    by (vm_compute; lia).
  refine (proj2 (createPoll_then_read (empty_store (Some u1)) sample_form
                   (js "Tabs or spaces?") u1 eq_refl Hne Hlen eq_refl eq_refl) _).
  intros p [].
Defined.

(** X14. After its creator has deleted a poll, it cannot be read any
    more: when the requester created every poll that carries the
    identifier and the delete goes through, [getPollById] answers with no
    poll and the message of PGRST116. *)
Theorem deletePoll_then_getPollById :
  forall (s : Store) (pollId : JsString),
    polls_delete_fault (faults s) = None ->
    (forall p, In p (polls s) -> poll_id p = pollId -> requester_is_creator s p) ->
    outcome (run (PQ.getPollById pollId) (final (run (PA.deletePoll pollId) s)))
    = Return {| PQ.poll := None; PQ.poll_error := Some (message PGRST116) |}.
Proof.
  intros s pollId Hf Hown. rewrite deletePoll_final.
  unfold mem_polls_delete_eq_id. rewrite Hf. cbn [snd].
  unfold_more. cbn [PQ.polls_select_single_by_id mem_queries].
  unfold PQ.mem_polls_select_single_by_id. cbn [polls].
  assert (Hnone : filter (fun p => jeqb (poll_id p) pollId)
                         (filter (fun p => negb (deleted s pollId p)) (polls s)) = []).
  { destruct (filter _ (filter _ _)) as [|p l] eqn:Hfl; [reflexivity|].
    assert (Hin : In p (filter (fun p => jeqb (poll_id p) pollId)
                               (filter (fun p => negb (deleted s pollId p)) (polls s))))
      by (rewrite Hfl; now left).
    apply filter_In in Hin as [Hin Hid]. apply filter_In in Hin as [Hin Hkept].
    unfold deleted in Hkept. rewrite Hid in Hkept. cbn [andb] in Hkept.
    apply jeqb_eq in Hid.
    rewrite (proj2 (may_delete_true s p) (Hown p Hin Hid)) in Hkept. discriminate. }
  rewrite Hnone. reflexivity.
Qed.

Lemma deletePoll_then_getPollById_witness :
  polls_delete_fault (faults (populated_store (Some u1))) = None
  /\ outcome (run (PQ.getPollById poll1) (populated_store (Some u1)))
     = Return {| PQ.poll := Some poll_of_u1; PQ.poll_error := None |}
  /\ outcome (run (PQ.getPollById poll1)
                  (final (run (PA.deletePoll poll1) (populated_store (Some u1)))))
     = Return {| PQ.poll := None; PQ.poll_error := Some (message PGRST116) |}.
Proof.
  split; [reflexivity|]. split; [reflexivity|].
  apply (deletePoll_then_getPollById (populated_store (Some u1)) poll1 eq_refl).
  intros p [<- | []] _. exists u1. split; reflexivity.
Defined.

Lemma filter_drops_all {A} (f : A -> bool) (l : list A) :
  (forall x, In x l -> f x = false) -> filter f l = [].
Proof.
  induction l as [|x l IH]; intros H; simpl; [reflexivity|].
  rewrite (H x (or_introl eq_refl)). apply IH.
  intros y Hy. apply H. now right.
Qed.

(** X15. Creating a poll and deleting it again is a round trip on the
    tables: when the identifier the store hands out is not in use, the
    creator's [deletePoll] of the new poll brings polls, options and votes
    back to what they were before [createPoll]. *)
Theorem createPoll_then_deletePoll :
  forall (s : Store) (formData : PA.FormData) (question : JsString) (u : User),
    PA.formData_get (js "question") formData = Some question ->
    question <> [] ->
    2 <= List.length (filter truthy (PA.formData_getAll (js "options") formData)) ->
    healthy s -> session s = Some u ->
    let pid := uuid_gen s (uuid_next s) in
    (forall p, In p (polls s) -> poll_id p <> pid) ->
    (forall o, In o (poll_options s) -> option_poll_id o <> pid) ->
    (forall v, In v (votes s) -> vote_poll_id v <> pid) ->
    let s'' := final (run (PA.deletePoll pid) (final (run (PA.createPoll formData) s))) in
    polls s'' = polls s /\ poll_options s'' = poll_options s /\ votes s'' = votes s.
Proof.
  intros s formData question u Hq Hne Hl Hh Hs pid Hp Ho Hv s''. subst s''.
  rewrite (createPoll_success_final s formData question u Hq Hne Hl Hh Hs).
  fold pid. rewrite deletePoll_final. unfold mem_polls_delete_eq_id.
  cbn [faults]. rewrite Hh. cbn [polls_delete_fault no_faults snd].
  set (created := {| poll_id := pid; poll_title := question;
                     poll_created_by := Some (id u) |}).
  set (rows := PA.optionsToInsert pid 0 _).
  set (s1 := {| session := session s; polls := polls s ++ [created];
                poll_options := poll_options s ++ rows; votes := votes s;
                uuid_gen := uuid_gen s; uuid_next := S (uuid_next s);
                faults := no_faults |}).
  cbn [polls poll_options votes].
  assert (Hdel : deleted s1 pid created = true).
  { unfold deleted, may_delete. cbn [s1 session created poll_id poll_created_by].
    rewrite Hs, !jeqb_refl. reflexivity. }
  assert (Hold : forall p, In p (polls s) -> deleted s1 pid p = false).
  { intros p Hin. unfold deleted.
    destruct (jeqb (poll_id p) pid) eqn:Hid; [|reflexivity].
    apply jeqb_eq in Hid. now destruct (Hp p Hin). }
  assert (Hcas : cascades s1 pid pid = true).
  { unfold cascades. cbn [s1 polls]. rewrite existsb_app. cbn [existsb].
    rewrite Hdel. cbn [created poll_id]. rewrite jeqb_refl. cbn.
    now rewrite orb_true_r. }
  assert (Hrows : Forall (fun o => option_poll_id o = pid) rows)
    by apply optionsToInsert_spec.
  change (polls s1) with (polls s ++ [created]).
  change (poll_options s1) with (poll_options s ++ rows).
  change (votes s1) with (votes s).
  repeat split.
  - rewrite filter_app. cbn [filter]. rewrite Hdel. cbn [negb].
    rewrite app_nil_r. apply filter_keeps_all.
    intros p Hin. now rewrite (Hold p Hin).
  - rewrite filter_app.
    assert (Hgone : filter (fun o => negb (cascades s1 pid (option_poll_id o))) rows = []).
    { apply filter_drops_all. intros o Hin.
      rewrite (proj1 (Forall_forall _ _) Hrows o Hin), Hcas. reflexivity. }
    rewrite Hgone, app_nil_r. apply filter_keeps_all.
    intros o Hin. rewrite cascade_own_key; [reflexivity | now apply Ho].
  - apply filter_keeps_all.
    intros v Hin. rewrite cascade_own_key; [reflexivity | now apply Hv].
Qed.

Lemma createPoll_then_deletePoll_witness :
  polls (final (run (PA.deletePoll (js "poll-"))
                    (final (run (PA.createPoll sample_form) (empty_store (Some u1))))))
  = []
  /\ poll_options
       (final (run (PA.deletePoll (js "poll-"))
                   (final (run (PA.createPoll sample_form) (empty_store (Some u1))))))
     = [].
Proof.
  assert (Hne : js "Tabs or spaces?" <> []) by (vm_compute; discriminate).
  assert (Hlen : 2 <= List.length
                        (filter truthy (PA.formData_getAll (js "options") sample_form)))
    by (vm_compute; lia).
  destruct (createPoll_then_deletePoll (empty_store (Some u1)) sample_form
              (js "Tabs or spaces?") u1 eq_refl Hne Hlen eq_refl eq_refl)
    as (Hp & Ho & _); try (intros ? []).
  split; [exact Hp | exact Ho].
Defined.

(* ===================================================================== *)
(** ** updatePoll and the authentication actions *)
(* ===================================================================== *)

Lemma validation_decides (question : JsString) (n : nat) :
  negb (truthy question) || Nat.ltb n 2 = false <-> question <> [] /\ 2 <= n.
Proof.
  rewrite orb_false_iff, Nat.ltb_ge. destruct question; cbn; split.
  - intros [H _]. discriminate.
  - intros [H _]. now contradiction H.
  - intros [_ H]. split; [discriminate | assumption].
  - intros [_ H]. auto.
Qed.

(** X16. [updatePoll] applies the validation of [createPoll]: for every
    form, either both turn it down with the same message before making
    any call, or both go on to the session lookup. Past validation,
    [updatePoll] without a session user answers "You must be logged in to
    update a poll." and never asks the store for the update. *)
Theorem updatePoll_validates_like_createPoll :
  forall (St : Type) (client : Backend St) (updates : PQ.UpdateClient St)
         (s : St) (pollId : JsString) (formData : PA.FormData),
    let created := run (PA.createPoll formData) s in
    let updated := run (PQ.updatePoll pollId formData) s in
    let rejected :=
      (Return {| PA.error :=
                   Some (js "Please provide a question and at least two options.") |},
       {| backend := s; trace := [] |}) in
    ((created = rejected /\ updated = rejected)
     \/ ((exists rest, calls created = AuthGetUser :: rest)
         /\ (exists rest, calls updated = AuthGetUser :: rest)))
    /\ ((exists rest, calls updated = AuthGetUser :: rest) ->
        auth_error (fst (auth_getUser s)) = None ->
        user (fst (auth_getUser s)) = None ->
        updated = (Return {| PA.error :=
                               Some (js "You must be logged in to update a poll.") |},
                   {| backend := snd (auth_getUser s); trace := [AuthGetUser] |})).
Proof.
  intros St client updates s pollId formData created updated rejected.
  subst created updated rejected. unfold_more. unfold_action.
  destruct (PA.formData_get (js "question") formData) as [q|];
    [|split; [now left | intros [rest H]; discriminate]].
  destruct (negb (truthy q) || _);
    [split; [now left | intros [rest H]; discriminate]|].
  unfold_more. unfold_action. split.
  - right. split.
    + destruct (auth_error _); [eexists; reflexivity|].
      destruct (user _); [|eexists; reflexivity].
      unfold_action.
      destruct (reply_error _); [eexists; reflexivity|].
      destruct (@reply_data JsString _); [|eexists; reflexivity].
      unfold_action.
      destruct (fst (poll_options_insert _ _)); eexists; reflexivity.
    + destruct (auth_error _); [eexists; reflexivity|].
      destruct (user _); [|eexists; reflexivity].
      unfold_more.
      destruct (fst (PQ.polls_update _ _ _ _ _)); eexists; reflexivity.
  - intros _ He Hu. now rewrite He, Hu.
Qed.

(** X17. [login] tells a caller nothing about why a sign-in failed:
    whatever error the provider reports, for whatever form, the action
    returns the same fixed message and revalidates nothing; only a
    sign-in without error revalidates the layout and redirects to
    [/polls]. *)
Theorem login_failure_is_uniform :
  forall (St : Type) (auth : AA.AuthClient St) (s : St) (formData : PA.FormData),
    let reply := AA.signInWithPassword
                   (PA.formData_get (js "email") formData)
                   (PA.formData_get (js "password") formData) s in
    let r := run (AA.login formData) s in
    (forall e, fst reply = Some e ->
       outcome r = Return (AA.Returns
                             {| PA.error := Some (js "Invalid email or password.") |})
       /\ calls r = [])
    /\ (fst reply = None ->
          outcome r = Return (AA.Redirects (js "/polls"))
          /\ calls r = [RevalidatePath (js "/")])
    /\ (forall (s2 : St) (formData2 : PA.FormData),
          fst reply <> None ->
          fst (AA.signInWithPassword
                 (PA.formData_get (js "email") formData2)
                 (PA.formData_get (js "password") formData2) s2) <> None ->
          outcome (run (AA.login formData2) s2) = outcome r).
Proof.
  intros St auth s formData reply r. subst reply r. unfold_more.
  split; [|split].
  - intros e He. rewrite He. auto.
  - intros He. rewrite He. auto.
  - intros s2 formData2 H1 H2. unfold_more.
    destruct (fst (AA.signInWithPassword _ _ s)); [|now contradiction H1].
    destruct (fst (AA.signInWithPassword _ _ s2)); [|now contradiction H2].
    reflexivity.
Qed.

Lemma strict_eq_true (a b : option JsString) :
  AA.strict_eq a b = true <-> a = b.
Proof.
  destruct a as [x|], b as [y|]; cbn; try (split; [discriminate | discriminate]).
  - rewrite jeqb_eq. split; congruence.
  - split; reflexivity.
Qed.

(** X18. [register] reaches the provider exactly when the "password" and
    "confirmPassword" fields are strictly equal: if they differ it
    answers "Passwords do not match" and makes no call; if they agree it
    asks for the sign-up and returns the provider's message or no error.
    Two absent fields agree, so a form without either still reaches the
    provider, with a null password. *)
Theorem register_checks_confirmation :
  forall (St : Type) (auth : AA.AuthClient St) (s : St) (formData : PA.FormData),
    let name := PA.formData_get (js "name") formData in
    let email := PA.formData_get (js "email") formData in
    let password := PA.formData_get (js "password") formData in
    let confirmPassword := PA.formData_get (js "confirmPassword") formData in
    let r := run (AA.register formData) s in
    (password <> confirmPassword ->
       r = (Return {| PA.error := Some (js "Passwords do not match") |},
            {| backend := s; trace := [] |}))
    /\ (password = confirmPassword ->
          final r = snd (AA.signUp email password name s)
          /\ outcome r
             = Return {| PA.error :=
                           option_map auth_message
                                      (fst (AA.signUp email password name s)) |})
    /\ (password = None -> confirmPassword = None ->
          final r = snd (AA.signUp email None name s)).
Proof.
  intros St auth s formData name email password confirmPassword r.
  assert (Hsame : password = confirmPassword ->
            final r = snd (AA.signUp email password name s)
            /\ outcome r
               = Return {| PA.error :=
                             option_map auth_message
                                        (fst (AA.signUp email password name s)) |}).
  { intros Heq. subst r. unfold_more.
    fold name. fold email. fold password. fold confirmPassword.
    rewrite (proj2 (strict_eq_true password confirmPassword) Heq).
    unfold_more.
    destruct (fst (AA.signUp email password name s)); auto. }
  split; [|split].
  - intros Hne. subst r. unfold_more. fold password. fold confirmPassword.
    destruct (AA.strict_eq password confirmPassword) eqn:He; [|reflexivity].
    apply strict_eq_true in He. contradiction.
  - exact Hsame.
  - intros Hp Hc.
    assert (Heq : password = confirmPassword) by congruence.
    destruct (Hsame Heq) as [Hf _]. now rewrite Hp in Hf.
Qed.

(* ===================================================================== *)
(** ** The cookie writer *)
(* ===================================================================== *)

Lemma filter_fixed_iff {A} (f : A -> bool) (l : list A) :
  filter f l = l <-> Forall (fun x => f x = true) l.
Proof.
  split.
  - intros H. rewrite <- H. apply Forall_forall. intros x Hx.
    now apply filter_In in Hx.
  - intros H. apply filter_keeps_all. now apply Forall_forall.
Qed.

(** X19. [safeName] keeps exactly the letters, digits, underscores and
    hyphens of a cookie name, in order: the result contains nothing else,
    sanitising twice is sanitising once, and a name is returned unchanged
    exactly when every character of it is admitted. *)
Theorem safeName_only_admitted_characters :
  forall name : JsString,
    Forall (fun c => Middleware.is_name_char c = true) (Middleware.safeName name)
    /\ Middleware.safeName (Middleware.safeName name) = Middleware.safeName name
    /\ (Middleware.safeName name = name
        <-> Forall (fun c => Middleware.is_name_char c = true) name)
    /\ List.length (Middleware.safeName name) <= List.length name.
Proof.
  intros name. unfold Middleware.safeName. repeat split.
  - apply Forall_forall. intros c Hc. now apply filter_In in Hc.
  - apply filter_idem.
  - apply filter_fixed_iff.
  - apply filter_fixed_iff.
  - apply filter_length_le.
Qed.

Lemma count_occ_filter (keep : N -> bool) (c : N) (l : JsString) :
  keep c = true ->
  count_occ N.eq_dec (filter keep l) c = count_occ N.eq_dec l c.
Proof.
  intros Hk. induction l as [|x l IH]; [reflexivity|].
  cbn [filter]. destruct (keep x) eqn:Hx.
  - cbn [count_occ]. destruct (N.eq_dec x c); now rewrite IH.
  - rewrite IH. cbn [count_occ].
    destruct (N.eq_dec x c) as [-> |]; [congruence | reflexivity].
Qed.

(** X20. [safeValue] removes carriage returns and line feeds and
    nothing else: the result contains neither, every other code unit
    occurs as often as before, and sanitising twice is sanitising
    once. So a written cookie value cannot break out of its header
    line. *)
Theorem safeValue_strips_line_breaks :
  forall value : JsString,
    ~ In 13%N (Middleware.safeValue value)
    /\ ~ In 10%N (Middleware.safeValue value)
    /\ (forall c, c <> 13%N -> c <> 10%N ->
          count_occ N.eq_dec (Middleware.safeValue value) c
          = count_occ N.eq_dec value c)
    /\ Middleware.safeValue (Middleware.safeValue value) = Middleware.safeValue value.
Proof.
  intros value. unfold Middleware.safeValue. repeat split.
  - intros Hin. apply filter_In in Hin as [_ H]. discriminate.
  - intros Hin. apply filter_In in Hin as [_ H]. discriminate.
  - intros c H13 H10. apply count_occ_filter.
    apply negb_true_iff, orb_false_iff. split; now apply N.eqb_neq.
  - apply filter_idem.
Qed.

(** X21. [setAll] writes every cookie it is given, once to the request
    and once to the response, in the same order and with the same
    sanitised name and value on both sides; the options reach the
    response untouched; and no written name has a character outside the
    admitted set, no written value a line break. *)
Theorem setAll_writes_sanitised_pairs :
  forall (Options : Type) (cookiesToSet : list (Middleware.CookieToSet Options)),
    map fst (Middleware.setAll_response cookiesToSet)
    = Middleware.setAll_request cookiesToSet
    /\ map snd (Middleware.setAll_response cookiesToSet)
       = map Middleware.options cookiesToSet
    /\ List.length (Middleware.setAll_request cookiesToSet) = List.length cookiesToSet
    /\ Forall (fun nv => Forall (fun c => Middleware.is_name_char c = true) (fst nv)
                         /\ ~ In 13%N (snd nv) /\ ~ In 10%N (snd nv))
              (Middleware.setAll_request cookiesToSet).
Proof.
  intros Options cookiesToSet.
  unfold Middleware.setAll_response, Middleware.setAll_request.
  rewrite !map_map, length_map. repeat split.
  apply Forall_forall. intros nv Hin.
  apply in_map_iff in Hin as (c & <- & _). cbn [fst snd].
  unfold Middleware.safeName, Middleware.safeValue. repeat split.
  - apply Forall_forall. intros x Hx. now apply filter_In in Hx.
  - intros Hx. apply filter_In in Hx as [_ H]. discriminate.
  - intros Hx. apply filter_In in Hx as [_ H]. discriminate.
Qed.

(* ===================================================================== *)
(** ** The option fields of the creation form and the poll card *)
(* ===================================================================== *)

Lemma map_at_length (i idx : nat) (value : JsString) (opts : list JsString) :
  List.length (Form.map_at i idx value opts) = List.length opts.
Proof.
  revert i. induction opts as [|o opts IH]; intros i; cbn; [reflexivity|].
  now rewrite IH.
Qed.

Lemma map_at_nth (i idx : nat) (value : JsString) (opts : list JsString) (j : nat) :
  nth_error (Form.map_at i idx value opts) j =
  if Nat.eqb (i + j) idx
  then option_map (fun _ => value) (nth_error opts j)
  else nth_error opts j.
Proof.
  revert i j. induction opts as [|o opts IH]; intros i j.
  - destruct j; cbn; now destruct (Nat.eqb _ idx).
  - destruct j as [|j]; cbn [Form.map_at nth_error].
    + rewrite Nat.add_0_r. now destruct (Nat.eqb i idx).
    + rewrite IH. now rewrite Nat.add_succ_r.
Qed.

Lemma filter_at_split (i idx : nat) (opts : list JsString) :
  i <= idx ->
  Form.filter_at i idx opts = firstn (idx - i) opts ++ skipn (S (idx - i)) opts.
Proof.
  revert i. induction opts as [|o opts IH]; intros i Hle.
  - cbn. now rewrite firstn_nil.
  - cbn [Form.filter_at]. destruct (Nat.eqb i idx) eqn:He.
    + apply Nat.eqb_eq in He. subst idx. rewrite Nat.sub_diag. cbn.
      clear IH Hle. revert i.
      induction opts as [|o' opts IH']; intros i; [reflexivity|].
      cbn [Form.filter_at].
      replace (Nat.eqb (S i) i) with false
        by (symmetry; apply Nat.eqb_neq; lia).
      cbn [negb]. f_equal.
      assert (Hgen : forall k l, k < i + 1 + k ->
                 Form.filter_at (i + 1 + k) i l = l).
      { intros k l _. revert k. induction l as [|x l IHl]; intros k; [reflexivity|].
        cbn [Form.filter_at].
        replace (Nat.eqb (i + 1 + k) i) with false
          by (symmetry; apply Nat.eqb_neq; lia).
        cbn [negb]. f_equal.
        replace (S (i + 1 + k)) with (i + 1 + S k) by lia. apply IHl. }
      replace (S (S i)) with (i + 1 + 1) by lia. apply Hgen. lia.
    + apply Nat.eqb_neq in He. cbn [negb].
      rewrite IH by lia.
      replace (idx - i) with (S (idx - S i)) by lia. reflexivity.
Qed.

(** X22. However the user edits the option fields of the creation form
    (changing a field, adding one, removing one, in any order and with
    any index), the form never shows fewer than two of them. *)
Theorem form_keeps_two_options :
  forall edits : list Form.Edit,
    2 <= List.length (fold_left Form.edit edits Form.initial_options).
Proof.
  assert (Hstep : forall opts e,
             2 <= List.length opts -> 2 <= List.length (Form.edit opts e)).
  { intros opts [idx value| |idx] Hl; cbn [Form.edit].
    - unfold Form.handleOptionChange. now rewrite map_at_length.
    - unfold Form.addOption. rewrite length_app. cbn. lia.
    - unfold Form.removeOption.
      destruct (Nat.ltb 2 (List.length opts)) eqn:Hlt; [|assumption].
      apply Nat.ltb_lt in Hlt.
      rewrite filter_at_split by lia. rewrite Nat.sub_0_r, length_app.
      rewrite length_firstn, length_skipn. lia. }
  assert (Hall : forall edits opts,
             2 <= List.length opts ->
             2 <= List.length (fold_left Form.edit edits opts)).
  { induction edits as [|e edits IH]; intros opts Hl; cbn [fold_left]; auto. }
  intros edits. apply Hall. cbn. lia.
Qed.

(** X23. [handleOptionChange] replaces the text of the field at the
    given index and touches no other field: the number of fields is
    unchanged, the field at the index reads the new value, every other
    field reads what it read before, and an index past the last field
    changes nothing. *)
Theorem handleOptionChange_updates_one_field :
  forall (idx : nat) (value : JsString) (opts : list JsString),
    let opts' := Form.handleOptionChange idx value opts in
    List.length opts' = List.length opts
    /\ (idx < List.length opts -> nth_error opts' idx = Some value)
    /\ (forall j, j <> idx -> nth_error opts' j = nth_error opts j)
    /\ (List.length opts <= idx -> opts' = opts).
Proof.
  intros idx value opts opts'. subst opts'. unfold Form.handleOptionChange.
  split; [apply map_at_length|]. split; [|split].
  - intros Hlt. rewrite map_at_nth. cbn [Nat.add]. rewrite Nat.eqb_refl.
    destruct (nth_error opts idx) eqn:Hn; [reflexivity|].
    apply nth_error_None in Hn. lia.
  - intros j Hj. rewrite map_at_nth. cbn [Nat.add].
    now rewrite (proj2 (Nat.eqb_neq j idx) Hj).
  - intros Hge. apply nth_error_ext. intros j. rewrite map_at_nth. cbn [Nat.add].
    destruct (Nat.eqb j idx) eqn:He; [|reflexivity].
    apply Nat.eqb_eq in He. subst j.
    now rewrite (proj2 (nth_error_None opts idx) Hge).
Qed.

Lemma handleOptionChange_witness :
  1 < List.length Form.initial_options
  /\ Form.handleOptionChange 1 (js "Spaces") Form.initial_options = [[]; js "Spaces"].
Proof.
  assert (Hlt : 1 < List.length Form.initial_options) by (cbn; lia).
  split; [exact Hlt|].
  pose proof (handleOptionChange_updates_one_field 1 (js "Spaces")
                Form.initial_options) as (_ & Hat & _).
  pose proof (Hat Hlt) as H. vm_compute in H. vm_compute. reflexivity.
Defined.

(** X24. [removeOption] on a form that shows more than two fields drops
    exactly the field at the index and keeps the others in order; with
    two fields, or with an index past the last field, it changes
    nothing; and removing the field that [addOption] has just added gives
    the fields back as they were. *)
Theorem removeOption_drops_one_field :
  forall (idx : nat) (opts : list JsString),
    (2 < List.length opts ->
       Form.removeOption opts idx opts = firstn idx opts ++ skipn (S idx) opts)
    /\ (2 < List.length opts -> idx < List.length opts ->
          List.length (Form.removeOption opts idx opts) = List.length opts - 1)
    /\ (List.length opts <= 2 \/ List.length opts <= idx ->
          Form.removeOption opts idx opts = opts)
    /\ (2 <= List.length opts ->
          Form.removeOption (Form.addOption opts) (List.length opts)
                            (Form.addOption opts) = opts).
Proof.
  intros idx opts.
  assert (Hcut : 2 < List.length opts ->
            Form.removeOption opts idx opts = firstn idx opts ++ skipn (S idx) opts).
  { intros Hlt. unfold Form.removeOption.
    rewrite (proj2 (Nat.ltb_lt _ _) Hlt).
    rewrite filter_at_split by lia. now rewrite Nat.sub_0_r. }
  split; [exact Hcut|]. split; [|split].
  - intros Hlt Hidx. rewrite (Hcut Hlt), length_app, length_firstn, length_skipn. lia.
  - intros [Hle | Hge].
    + unfold Form.removeOption.
      now rewrite (proj2 (Nat.ltb_ge _ _) Hle).
    + unfold Form.removeOption. destruct (Nat.ltb 2 (List.length opts)); [|reflexivity].
      rewrite filter_at_split by lia. rewrite Nat.sub_0_r.
      rewrite firstn_all2 by lia. rewrite skipn_all2 by lia. apply app_nil_r.
  - intros Hl. unfold Form.removeOption, Form.addOption.
    rewrite length_app. cbn [List.length].
    rewrite (proj2 (Nat.ltb_lt 2 (List.length opts + 1))) by lia.
    rewrite filter_at_split by lia. rewrite Nat.sub_0_r.
    rewrite firstn_app, Nat.sub_diag, firstn_all. cbn [firstn].
    rewrite skipn_all2 by (rewrite length_app; cbn; lia).
    now rewrite !app_nil_r.
Qed.

Lemma removeOption_witness :
  2 < List.length three_options
  /\ Form.removeOption three_options 1 three_options = [js "Tabs"; js "Spaces"].
Proof.
  assert (Hlt : 2 < List.length three_options) by (cbn; lia).
  split; [exact Hlt|].
  rewrite (proj1 (removeOption_drops_one_field 1 three_options) Hlt). reflexivity.
Defined.

Lemma submitted_fields (question : JsString) (opts : list JsString) :
  PA.formData_get (js "question") (Form.submitted question opts) = Some question
  /\ PA.formData_getAll (js "options") (Form.submitted question opts) = opts.
Proof.
  unfold Form.submitted. split; [reflexivity|].
  unfold PA.formData_getAll. cbn [filter fst].
  replace (jeqb (js "question") (js "options")) with false by reflexivity.
  induction opts as [|o opts IH]; [reflexivity|].
  cbn [map filter fst snd].
  replace (jeqb (js "options") (js "options")) with true by reflexivity.
  cbn [map snd]. now rewrite IH.
Qed.

(** X25. What the creation form submits is accepted by [createPoll]
    exactly when the question is non-empty and at least two option fields
    are filled in: otherwise the action answers with the validation
    message and makes no call. A form that has only been given a
    question, its two option fields still blank, is therefore always
    turned down, and the two-field minimum of the form does not replace
    the server's check. *)
Theorem form_submission_validated :
  forall (St : Type) (client : Backend St) (s : St)
         (question : JsString) (opts : list JsString),
    let r := run (PA.createPoll (Form.submitted question opts)) s in
    let rejected :=
      (Return {| PA.error :=
                   Some (js "Please provide a question and at least two options.") |},
       {| backend := s; trace := [] |}) in
    (r = rejected <-> question = [] \/ List.length (filter truthy opts) < 2)
    /\ run (PA.createPoll (Form.submitted question Form.initial_options)) s = rejected.
Proof.
  intros St client s question opts r rejected. subst r rejected.
  assert (Hrun : forall q os,
            (q = [] \/ List.length (filter truthy os) < 2 ->
             run (PA.createPoll (Form.submitted q os)) s
             = (Return {| PA.error :=
                            Some (js "Please provide a question and at least two options.") |},
                {| backend := s; trace := [] |}))
            /\ (q <> [] /\ 2 <= List.length (filter truthy os) ->
                exists rest, calls (run (PA.createPoll (Form.submitted q os)) s)
                             = AuthGetUser :: rest)).
  { intros q os. destruct (submitted_fields q os) as [Hq Ho].
    unfold_action. rewrite Hq, Ho. split.
    - intros Hbad. rewrite validation_fails; [reflexivity | exact Hbad].
    - intros Hok. rewrite (proj2 (validation_decides q _) Hok).
      unfold_action.
      destruct (auth_error _); [eexists; reflexivity|].
      destruct (user _); [|eexists; reflexivity].
      unfold_action.
      destruct (reply_error _); [eexists; reflexivity|].
      destruct (@reply_data JsString _); [|eexists; reflexivity].
      unfold_action.
      destruct (fst (poll_options_insert _ _)); eexists; reflexivity. }
  split.
  - split; [|apply Hrun].
    intros Hrej.
    destruct question as [|c q]; [now left|]. right.
    destruct (Nat.lt_ge_cases (List.length (filter truthy opts)) 2) as [Hlt | Hge];
      [assumption|].
    destruct (proj2 (Hrun (c :: q) opts)) as [rest Hrest];
      [split; [discriminate | assumption]|].
    unfold calls in Hrest. rewrite Hrej in Hrest. discriminate.
  - apply Hrun. right. cbn. lia.
Qed.

(** X26. A poll card shows the Edit and Delete buttons exactly when a
    viewer is signed in, has a non-empty identifier and it is the poll's
    creator; and for a signed-in viewer with a non-empty identifier the
    card agrees with the store: the Delete button is shown exactly when
    [deletePoll] of that poll, if the call goes through, removes it. *)
Theorem card_shows_delete_to_whom_the_store_obeys :
  forall (s : Store) (u : User) (p : PollRow) (created_by : JsString)
         (currentUserId : option JsString),
    (PollCard.shows_management currentUserId created_by = true
     <-> currentUserId = Some created_by /\ created_by <> [])
    /\ (session s = Some u -> id u <> [] ->
        poll_created_by p = Some created_by ->
        In p (polls s) ->
        polls_delete_fault (faults s) = None ->
        (PollCard.shows_management (Some (id u)) created_by = true
         <-> ~ In p (polls (final (run (PA.deletePoll (poll_id p)) s))))).
Proof.
  intros s u p created_by currentUserId.
  assert (Hshow : forall cu, PollCard.shows_management cu created_by = true
                             <-> cu = Some created_by /\ created_by <> []).
  { intros [uid|]; cbn; [|split; [discriminate | intros [H _]; discriminate]].
    rewrite andb_true_iff, jeqb_eq. split.
    - intros [Ht ->]. split; [reflexivity|]. destruct created_by; [discriminate|discriminate].
    - intros [H Hne]. inversion H; subst. split; [|reflexivity].
      destruct created_by; [contradiction | reflexivity]. }
  split; [apply Hshow|].
  intros Hs Hne Hc Hin Hf.
  rewrite deletePoll_final. unfold mem_polls_delete_eq_id. rewrite Hf.
  cbn [snd polls].
  assert (Hdel : deleted s (poll_id p) p = may_delete s p)
    by (unfold deleted; now rewrite jeqb_refl).
  assert (Hmay : may_delete s p = true <-> id u = created_by).
  { unfold may_delete. rewrite Hs, Hc. apply jeqb_eq. }
  rewrite Hshow. split.
  - intros [Heq _] Hstill. inversion Heq as [Hid].
    apply filter_In in Hstill as [_ Hk]. rewrite Hdel in Hk.
    rewrite (proj2 Hmay Hid) in Hk. discriminate.
  - intros Hgone.
    assert (Hm : may_delete s p = true).
    { destruct (may_delete s p) eqn:Hm; [reflexivity|].
      exfalso. apply Hgone. apply filter_In. split; [assumption|].
      now rewrite Hdel. }
    apply Hmay in Hm. split; [now rewrite Hm | now rewrite <- Hm].
Qed.

Lemma card_witness :
  session (populated_store (Some u1)) = Some u1 /\ id u1 <> []
  /\ PollCard.shows_management (Some (id u1)) (id u1) = true
  /\ ~ In poll_of_u1
         (polls (final (run (PA.deletePoll (poll_id poll_of_u1))
                            (populated_store (Some u1))))).
Proof.
  assert (Hne : id u1 <> []) by (vm_compute; discriminate).
  split; [reflexivity|]. split; [exact Hne|]. split; [reflexivity|].
  exact (proj1 (proj2 (card_shows_delete_to_whom_the_store_obeys
                         (populated_store (Some u1)) u1 poll_of_u1 (id u1) None)
                      eq_refl Hne eq_refl (or_introl eq_refl) eq_refl)
               eq_refl).
Defined.

(* ===================================================================== *)
(** ** Sample runs *)
(* ===================================================================== *)

Lemma getUserPolls_empty_witness :
  user (fst (auth_getUser (populated_store None))) = None
  /\ run PQ.getUserPolls (populated_store None)
     = (Return {| PQ.polls := [];
                  PQ.polls_error := Some (js "Not authenticated") |},
        {| backend := populated_store None; trace := [AuthGetUser] |}).
Proof.
  split; [reflexivity|].
  exact (proj1 (getUserPolls_empty_on_failure Store mem_backend mem_queries
                  (populated_store None)) eq_refl).
Defined.

Lemma updatePoll_witness :
  user (fst (auth_getUser (populated_store None))) = None
  /\ run (PQ.updatePoll poll1 sample_form) (populated_store None)
     = (Return {| PA.error := Some (js "You must be logged in to update a poll.") |},
        {| backend := populated_store None; trace := [AuthGetUser] |}).
Proof.
  split; [reflexivity|].
  refine (proj2 (updatePoll_validates_like_createPoll Store mem_backend mem_updates
                   (populated_store None) poll1 sample_form) _ eq_refl eq_refl).
  eexists. reflexivity.
Defined.

(** A wrong password and an unknown address get the same answer. *)
Lemma login_witness :
  fst (AA.signInWithPassword (Some (js "ada@example.org")) (Some (js "guess"))
                             one_account) <> None
  /\ fst (AA.signInWithPassword (Some (js "bob@example.org")) (Some (js "s3cret"))
                                one_account) <> None
  /\ outcome (run (AA.login (login_form (js "bob@example.org") (js "s3cret")))
                  one_account)
     = outcome (run (AA.login (login_form (js "ada@example.org") (js "guess")))
                    one_account)
  /\ outcome (run (AA.login (login_form (js "ada@example.org") (js "s3cret")))
                  one_account)
     = Return (AA.Redirects (js "/polls")).
Proof.
  assert (H1 : fst (AA.signInWithPassword (Some (js "ada@example.org"))
                      (Some (js "guess")) one_account) <> None)
    by (vm_compute; discriminate).
  assert (H2 : fst (AA.signInWithPassword (Some (js "bob@example.org"))
                      (Some (js "s3cret")) one_account) <> None)
    by (vm_compute; discriminate).
  split; [exact H1|]. split; [exact H2|]. split.
  - exact (proj2 (proj2 (login_failure_is_uniform Accounts accounts_auth one_account
                           (login_form (js "ada@example.org") (js "guess"))))
                 one_account (login_form (js "bob@example.org") (js "s3cret")) H1 H2).
  - exact (proj1 (proj1 (proj2 (login_failure_is_uniform Accounts accounts_auth
                                  one_account
                                  (login_form (js "ada@example.org") (js "s3cret"))))
                        eq_refl)).
Defined.

(** A form with neither password field reaches the provider. *)
Lemma register_witness :
  PA.formData_get (js "password") [(js "email", js "bob@example.org")] = None
  /\ PA.formData_get (js "confirmPassword") [(js "email", js "bob@example.org")] = None
  /\ outcome (run (AA.register [(js "email", js "bob@example.org")]) one_account)
     = Return {| PA.error := Some (js "Signup requires a valid password") |}
  /\ run (AA.register [(js "email", js "bob@example.org"); (js "password", js "a");
                       (js "confirmPassword", js "b")]) one_account
     = (Return {| PA.error := Some (js "Passwords do not match") |},
        {| backend := one_account; trace := [] |}).
Proof.
  split; [reflexivity|]. split; [reflexivity|]. split.
  - exact (proj2 (proj1 (proj2 (register_checks_confirmation Accounts accounts_auth
                                  one_account [(js "email", js "bob@example.org")]))
                        eq_refl)).
  - apply (proj1 (register_checks_confirmation Accounts accounts_auth one_account
                    [(js "email", js "bob@example.org"); (js "password", js "a");
                     (js "confirmPassword", js "b")])).
    vm_compute. discriminate.
Defined.

(** "a", CR, LF, "b" keeps its two letters. *)
Lemma safeValue_witness :
  97%N <> 13%N /\ 97%N <> 10%N
  /\ count_occ N.eq_dec (Middleware.safeValue [97; 13; 10; 98]%N) 97%N
     = count_occ N.eq_dec [97; 13; 10; 98]%N 97%N
  /\ Middleware.safeValue [97; 13; 10; 98]%N = [97; 98]%N.
Proof.
  assert (H13 : 97%N <> 13%N) by discriminate.
  assert (H10 : 97%N <> 10%N) by discriminate.
  split; [exact H13|]. split; [exact H10|]. split; [|reflexivity].
  exact (proj1 (proj2 (proj2 (safeValue_strips_line_breaks [97; 13; 10; 98]%N)))
               97%N H13 H10).
Defined.

(** One filled option is not enough, two are. *)
Lemma form_submission_witness :
  List.length (filter truthy [js "Tabs"; []]) < 2
  /\ run (PA.createPoll (Form.submitted (js "Tabs or spaces?") [js "Tabs"; []]))
         (empty_store (Some u1))
     = (Return {| PA.error :=
                    Some (js "Please provide a question and at least two options.") |},
        {| backend := empty_store (Some u1); trace := [] |}).
Proof.
  assert (Hlt : List.length (filter truthy [js "Tabs"; []]) < 2) by (vm_compute; lia).
  split; [exact Hlt|].
  apply (proj1 (form_submission_validated Store mem_backend (empty_store (Some u1))
                  (js "Tabs or spaces?") [js "Tabs"; []])).
  right. exact Hlt.
Defined.

(* ===================================================================== *)
(** ** submitEmojiResponse when awaited calls reject *)
(* ===================================================================== *)

Ltac unfold_awaited :=
  unfold run, outcome, calls, final, Awaited.submitEmojiResponse, Awaited.await,
    Awaited.construct, bind, ret, throw, try_catch, emit;
  cbn [backend trace fst snd app negb].

(** When every awaited call resolves, the action is the one of
    [ResponseActions]. *)
Lemma awaited_resolving (St : Type) (replies : Backend St) (z : ZodLib) (s : St)
      (pollId emoji : JsString) :
  run (@Awaited.submitEmojiResponse St (Awaited.resolving replies) z pollId emoji) s
  = run (RA.submitEmojiResponse z pollId emoji) s.
Proof.
  unfold_awaited. unfold_action.
  cbn [Awaited.createSupabaseServerClient Awaited.getUser Awaited.select_single
       Awaited.insert Awaited.resolving fst snd].
  destruct (user (fst (auth_getUser s))) as [u|]; [|reflexivity].
  destruct (RA.emojiResponseSchema z pollId emoji) as [|[|i rest]];
    [|reflexivity|reflexivity].
  unfold_awaited. unfold_action.
  cbn [Awaited.select_single Awaited.insert Awaited.resolving fst snd].
  destruct (reply_error _) as [e|];
    [destruct (jeqb (code e) (js "PGRST116")); cbn [negb]|];
    unfold_awaited; unfold_action; try reflexivity.
  all: destruct (@reply_data VoteRow _); unfold_awaited; unfold_action;
    try reflexivity.
  all: cbn [Awaited.insert Awaited.resolving fst snd];
    now destruct (fst (votes_insert _ _)).
Qed.

(** What the [catch] clause returns for a caught value. *)
Lemma caught_is_nonempty (t : Thrown) :
  or_else (message_of t) (js "An unexpected error occurred on the server.") <> [].
Proof. apply or_else_nonempty. vm_compute. discriminate. Qed.

(** Past the two awaits that precede the [try] block the action always
    returns. *)
Lemma awaited_returns (St : Type) (client : Awaited.Client St) (z : ZodLib)
      (s : St) (pollId emoji : JsString) (auth : AuthReply) :
  uuid_message z <> [] ->
  fst (Awaited.createSupabaseServerClient s) = None ->
  fst (Awaited.getUser (snd (Awaited.createSupabaseServerClient s))) = Return auth ->
  exists res,
    outcome (run (Awaited.submitEmojiResponse z pollId emoji) s) = Return res
    /\ (RA.success res = true -> RA.error res = None)
    /\ (RA.success res = false -> exists m, RA.error res = Some m /\ m <> []).
Proof.
  intros Hz Hb Hl. unfold_awaited. rewrite Hb. cbn [fst snd]. rewrite Hl.
  cbn [fst snd].
  assert (Hfail : forall m, m <> [] ->
            exists res,
              Return {| RA.success := false; RA.error := Some m |}
              = @Return RA.Result res
              /\ (RA.success res = true -> RA.error res = None)
              /\ (RA.success res = false -> exists m', RA.error res = Some m' /\ m' <> [])).
  { intros m Hm. eexists. split; [reflexivity|]. cbn. split; [discriminate|].
    intros _. eauto. }
  destruct (user auth) as [u|];
    [|apply Hfail; vm_compute; discriminate].
  destruct (RA.emojiResponseSchema z pollId emoji) as [|issues] eqn:Hp.
  - unfold_awaited.
    destruct (fst (Awaited.select_single _ _ _ _)) as [sel|t];
      [|apply Hfail, caught_is_nonempty].
    destruct (reply_error sel) as [e|];
      [destruct (jeqb (code e) (js "PGRST116")); cbn [negb]|];
      unfold_awaited; try (apply Hfail, caught_is_nonempty).
    all: destruct (reply_data sel); unfold_awaited;
      try (apply Hfail; vm_compute; discriminate).
    all: destruct (fst (Awaited.insert _ _)) as [[e'|]|t']; unfold_awaited;
      try (apply Hfail, caught_is_nonempty).
    all: eexists; (split; [reflexivity|]); cbn; split; [reflexivity | discriminate].
  - destruct (safeParse_issue z pollId emoji _ Hp) as (i & rest & -> & Hm).
    apply Hfail. destruct Hm as [-> | ->]; [assumption | vm_compute; discriminate].
Qed.

(** C9, as the code has it. [submitEmojiResponse] returns a result and
    throws nothing whenever the two awaits that precede its [try] block,
    the construction of the client and the session lookup, resolve: then,
    whatever the later calls do, rejections included, a successful result
    has no error field and a failed one has a non-empty error string, and
    whatever reaches the [catch] clause (a rejected select or insert, a
    select error other than PGRST116, an insert error) is reported by its
    message, or by "An unexpected error occurred on the server." when
    that message is empty. A rejection of either of the two first awaits
    is not caught: the action throws it, before any store call. The
    message zod attaches to a failed UUID check is assumed non-empty. *)
Theorem C9_returns_unless_an_early_await_rejects :
  forall (St : Type) (client : Awaited.Client St) (z : ZodLib) (s : St)
         (pollId emoji : JsString),
    uuid_message z <> [] ->
    let r := run (Awaited.submitEmojiResponse z pollId emoji) s in
    let built := Awaited.createSupabaseServerClient s in
    let looked := Awaited.getUser (snd built) in
    let reported (t : Thrown) :=
      Return {| RA.success := false;
                RA.error := Some (or_else (message_of t)
                               (js "An unexpected error occurred on the server.")) |} in
    (forall auth, fst built = None -> fst looked = Return auth ->
       exists res,
         outcome r = Return res
         /\ (RA.success res = true -> RA.error res = None)
         /\ (RA.success res = false -> exists m, RA.error res = Some m /\ m <> []))
    /\ (forall auth u,
          fst built = None -> fst looked = Return auth -> user auth = Some u ->
          RA.emojiResponseSchema z pollId emoji = ParseOk ->
          let selected := Awaited.select_single pollId (id u) emoji (snd looked) in
          let inserted := Awaited.insert (emoji_row pollId (id u) emoji)
                                         (snd selected) in
          (forall t, fst selected = Throw t -> outcome r = reported t)
          /\ (forall sel e, fst selected = Return sel -> reply_error sel = Some e ->
                jeqb (code e) (js "PGRST116") = false ->
                outcome r = reported (ThrownPostgrest e))
          /\ (forall sel, fst selected = Return sel -> reply_data sel = None ->
                (forall e, reply_error sel = Some e ->
                           jeqb (code e) (js "PGRST116") = true) ->
                (forall t, fst inserted = Throw t -> outcome r = reported t)
                /\ (forall e, fst inserted = Return (Some e) ->
                      outcome r = reported (ThrownPostgrest e)))
          /\ (forall t, message_of t = [] ->
                reported t
                = Return {| RA.success := false;
                            RA.error :=
                              Some (js "An unexpected error occurred on the server.") |}))
    /\ (forall t, fst built = Some t -> outcome r = Throw t /\ calls r = [])
    /\ (forall t, fst built = None -> fst looked = Throw t ->
          outcome r = Throw t /\ calls r = [AuthGetUser]).
Proof.
  intros St client z s pollId emoji Hz r built looked reported.
  split; [|split; [|split]].
  - intros auth Hb Hl. now apply (awaited_returns St client z s pollId emoji auth).
  - intros auth u Hb Hl Hu Hp selected inserted.
    subst r built looked selected inserted reported.
    unfold_awaited. rewrite Hb. cbn [fst snd]. rewrite Hl. cbn [fst snd].
    rewrite Hu, Hp. unfold_awaited. unfold emoji_row.
    split; [|split; [|split]].
    + intros t Ht. now rewrite Ht.
    + intros sel e Hs He Hc. rewrite Hs. cbn [fst snd]. now rewrite He, Hc.
    + intros sel Hs Hd Hc. rewrite Hs. cbn [fst snd]. rewrite Hd.
      destruct (reply_error sel) as [e|];
        [rewrite (Hc e eq_refl)|]; cbn [negb fst snd backend trace];
        (split; [intros t Ht; now rewrite Ht | intros e' He'; now rewrite He']).
    + intros t Ht. now rewrite Ht.
  - intros t Hb. subst r built. unfold_awaited. rewrite Hb. auto.
  - intros t Hb Hl. subst r built looked. unfold_awaited. rewrite Hb.
    cbn [fst snd]. rewrite Hl. auto.
Qed.

(** A deployment whose insert rejects with an error without a message
    still answers, with the fixed text. *)
Lemma C9_witness :
  uuid_message zod_default <> []
  /\ fst (@Awaited.createSupabaseServerClient _ Awaited.hosted_client
           Awaited.insert_rejecting) = None
  /\ outcome (run (@Awaited.submitEmojiResponse _ Awaited.hosted_client zod_default
                     poll1 thumbs_up) Awaited.insert_rejecting)
     = Return {| RA.success := false;
                 RA.error := Some (js "An unexpected error occurred on the server.") |}.
Proof.
  assert (Hz : uuid_message zod_default <> []) by (vm_compute; discriminate).
  split; [exact Hz|]. split; [reflexivity|].
  pose proof (@C9_returns_unless_an_early_await_rejects Awaited.Hosted
                Awaited.hosted_client zod_default Awaited.insert_rejecting
                poll1 thumbs_up Hz) as (_ & Hcaught & _).
  destruct (Hcaught _ u1 eq_refl eq_refl eq_refl eq_refl) as (_ & _ & Hins & _).
  refine (proj1 (Hins _ eq_refl eq_refl _) (ThrownTypeError []) eq_refl).
  intros e He. vm_compute in He. inversion He. reflexivity.
Defined.

(** C9, as specified, fails: where the environment lacks the project's
    URL and key the client cannot be built, the rejection happens before
    the [try] block, and the action throws instead of returning a
    result. *)
Lemma C9_counterexample :
  let r := run (@Awaited.submitEmojiResponse _ Awaited.hosted_client zod_default
                  poll1 thumbs_up) Awaited.unconfigured in
  fst (@Awaited.createSupabaseServerClient _ Awaited.hosted_client
         Awaited.unconfigured)
  = Some Awaited.missing_environment
  /\ outcome r = Throw Awaited.missing_environment
  /\ forall res : RA.Result, outcome r <> Return res.
Proof.
  split; [reflexivity|]. split; [reflexivity|].
  intros res. vm_compute. discriminate.
Qed.
